(** * sensu-runbook: the two-phase job dispatch of [main.go]

    A shallow embedding of [main.go]: the pre-flight check [checkArgs], the
    construction of the job definition ([generateCheckConfig]), the TLS
    client set-up ([LoadCACerts], [initHTTPClient]) and the two HTTP phases
    ([createJob], [executeJob]) driven by [executePlaybook].

    The program reads one package-level [config] value and talks to the
    outside through the Go standard library.  Here the configuration is an
    explicit record, the outside is an environment record [Env], and every
    effect (log lines, standard output, HTTP requests, process exit) is kept
    in a trace threaded through a small state-and-exit monad. *)

From Stdlib Require Import ZArith Ascii String List Lia.
From stdpp Require Import base option strings gmap pretty.

Local Open Scope Z_scope.
Local Open Scope string_scope.
Local Open Scope list_scope.

(** ** Go values *)

(** A Go [error] is kept as its message; [nil] is [None]. *)
Definition error : Type := string.

(** ** strings.Split and strings.Join for a one-byte separator

    [main.go] only ever splits on [","]. *)

Fixpoint strings_Split (s : string) (sep : ascii) : list string :=
  match s with
  | EmptyString => [EmptyString]
  | String c s' =>
      if Ascii.eqb c sep then EmptyString :: strings_Split s' sep
      else match strings_Split s' sep with
           | [] => [String c EmptyString]
           | p :: ps => String c p :: ps
           end
  end.

Fixpoint strings_Join (elems : list string) (sep : ascii) : string :=
  match elems with
  | [] => EmptyString
  | [e] => e
  | e :: rest => e +:+ String sep (strings_Join rest sep)
  end.

(** [strings.Contains] for a single byte. *)
Fixpoint contains_byte (s : string) (b : ascii) : bool :=
  match s with
  | EmptyString => false
  | String c s' => Ascii.eqb c b || contains_byte s' b
  end.

Definition comma : ascii := ","%char.

(** ** strconv.Atoi (64-bit [int]) *)

Definition ErrSyntax : error := "invalid syntax".
Definition ErrRange : error := "value out of range".

Definition digit_of (c : ascii) : option Z :=
  let n := Z.of_N (N_of_ascii c) in
  if (48 <=? n)%Z && (n <=? 57)%Z then Some (n - 48) else None.

(** The digit loop of [Atoi]'s fast path; [None] is its syntax error. *)
Fixpoint parse_digits (acc : Z) (s : string) : option Z :=
  match s with
  | EmptyString => Some acc
  | String c s' =>
      match digit_of c with
      | Some d => parse_digits (acc * 10 + d) s'
      | None => None
      end
  end.

(** The sign, if any, and the rest of the string. *)
Definition split_sign (s : string) : bool * string :=
  match s with
  | String "-"%char r => (true, r)
  | String "+"%char r => (false, r)
  | _ => (false, s)
  end.

(** The largest [uint64], and the smallest number whose tenfold exceeds it
    ([maxUint64/10 + 1]). *)
Definition maxUint64 : Z := 2 ^ 64 - 1.
Definition cutoff10 : Z := maxUint64 / 10 + 1.

(** The loop of [strconv.ParseUint] in base 10 with 64 bits: a byte that is
    not a digit is a syntax error; a digit that would take the number past
    [maxUint64] is a range error, reported at once, before the bytes after
    it are looked at. *)
Fixpoint ParseUint_digits (n : Z) (s : string) : Z * option error :=
  match s with
  | EmptyString => (n, None)
  | String c s' =>
      match digit_of c with
      | None => (0, Some ErrSyntax)
      | Some d =>
          if (n >=? cutoff10)%Z then (maxUint64, Some ErrRange)
          else
            let n1 := n * 10 + d in
            if (n1 >? maxUint64)%Z then (maxUint64, Some ErrRange)
            else ParseUint_digits n1 s'
      end
  end.

(** [strconv.ParseUint(s, 10, 64)] *)
Definition strconv_ParseUint (s : string) : Z * option error :=
  match s with
  | EmptyString => (0, Some ErrSyntax)
  | _ => ParseUint_digits 0 s
  end.

(** [strconv.ParseInt(s, 10, 0)]: the sign is picked off, the rest is read
    by [ParseUint]; any error but a range error is returned with [0]; a
    number outside [int] gives the nearest bound with a range error. *)
Definition strconv_ParseInt (s : string) : Z * option error :=
  match s with
  | EmptyString => (0, Some ErrSyntax)
  | _ =>
      let '(neg, s0) := split_sign s in
      let '(un, err) := strconv_ParseUint s0 in
      if match err with
         | Some e => negb (String.eqb e ErrRange)
         | None => false
         end
      then (0, err)
      else if negb neg && (un >=? 2 ^ 63)%Z then (2 ^ 63 - 1, Some ErrRange)
      else if neg && (un >? 2 ^ 63)%Z then (- 2 ^ 63, Some ErrRange)
      else (if neg then - un else un, None)
  end.

(** [strconv.Atoi]: strings of 1 to 18 bytes take the fast path, which
    cannot overflow; all others go through [ParseInt]. *)
Definition strconv_Atoi (s : string) : Z * option error :=
  let sLen := String.length s in
  if (0 <? sLen)%nat && (sLen <? 19)%nat then
    let '(neg, s1) := split_sign s in
    match s1 with
    | EmptyString => (0, Some ErrSyntax)
    | _ =>
        match parse_digits 0 s1 with
        | None => (0, Some ErrSyntax)
        | Some n => (if neg then - n else n, None)
        end
    end
  else strconv_ParseInt s.

(** The conversion [uint32(n)] of an [int]. *)
Definition uint32 (n : Z) : Z := n mod 2 ^ 32.

(** Whether one of the first [k] bytes of [s] is not a decimal digit. *)
Fixpoint has_nondigit_within (k : nat) (s : string) : bool :=
  match k, s with
  | S k', String c s' =>
      match digit_of c with
      | None => true
      | Some _ => has_nondigit_within k' s'
      end
  | _, _ => false
  end.

(** Characters that a Rocq string literal cannot hold directly. *)
Definition dquote : string := String "034"%char EmptyString.
Definition nl : string := String "010"%char EmptyString.

(** ** Data model *)

(** The package-level [config] of [main.go]; the embedded [sensu.PluginConfig]
    (name, description, keyspace) is constant and plays no part below. *)
Module config.
Record Config : Type := mkConfig {
  Namespace : string;
  JobID : string;
  Command : string;
  Subscriptions : string;
  Timeout : string;
  RuntimeAssets : string;
  SensuAPIUrl : string;
  SensuAccessToken : string;
  SensuTrustedCaFile : string
}.
End config.

(** The fields of sensu-go's [types.CheckConfig] that [main.go] sets; every
    other field keeps its zero value.  The embedded [ObjectMeta] is the field
    [metadata], after its JSON name; a [nil] slice is the empty list. *)
Module types.
Record ObjectMeta : Type := mkObjectMeta {
  Name : string;
  Namespace : string;
  Labels : gmap string string
}.

Record CheckConfig : Type := mkCheckConfig {
  metadata : ObjectMeta;
  Command : string;
  Publish : bool;
  Subscriptions : list string;
  Interval : Z;
  Timeout : Z;
  RuntimeAssets : list string
}.
End types.

(** [JobRequest] represents a job request. *)
Record JobRequest : Type := mkJobRequest {
  Check : string;
  Subscriptions : list string
}.

(** The document [json.Marshal] produces, kept as the value it encodes
    ([json.Marshal] does not fail on these two structs). *)
Inductive Payload : Type :=
| JSONCheckConfig (job : types.CheckConfig)
| JSONJobRequest (jobRequest : JobRequest).

Record Request : Type := mkRequest {
  Method : string;
  URL : string;
  Header : list (string * string);
  Body : Payload
}.

(** A response: its status code and what [ioutil.ReadAll(resp.Body)] gives. *)
Record Response : Type := mkResponse {
  StatusCode : Z;
  ReadAll : string + error
}.

Definition Cert : Type := string.
Definition CertPool : Type := list Cert.
Definition x509_NewCertPool : CertPool := [].

(** [http.Client{Transport: &http.Transport{TLSClientConfig: &tls.Config{RootCAs: certs}}}] *)
Record Client : Type := mkClient { RootCAs : CertPool }.

(** sensu-plugin-sdk's check states. *)
Definition CheckStateOK : Z := 0.
Definition CheckStateWarning : Z := 1.
Definition CheckStateCritical : Z := 2.

(** ** The environment

    What the Go standard library and the outside world answer.  [url_Parse]
    is the error, if any, that [http.NewRequest] reports for a URL and
    [url_String] the text that [req.URL] prints as.  [http_Do] is a whole
    [httpClient.Do] exchange; its answer may depend on the requests made
    before it (the remote platform has state). *)
Record Env : Type := mkEnv {
  x509_SystemCertPool : option CertPool * option error;
  ioutil_ReadFile : string -> string + error;
  x509_AppendCertsFromPEM : CertPool -> string -> CertPool;
  url_Parse : string -> option error;
  url_String : string -> string;
  http_StatusText : Z -> string;
  http_Do : list Request -> Client -> Request -> Response + error
}.

(** ** Effects *)

Inductive Event : Type :=
| Log (msg : string)
| Stdout (msg : string)
| Do (client : Client) (req : Request).

(** The requests handed to [httpClient.Do] so far, oldest first. *)
Fixpoint sent (t : list Event) : list Request :=
  match t with
  | [] => []
  | Do _ req :: t' => req :: sent t'
  | _ :: t' => sent t'
  end.

(** A computation either returns or ends the process ([os.Exit]). *)
Inductive Res (A : Type) : Type :=
| Done (a : A)
| OsExit (code : Z).
Arguments Done {A} a.
Arguments OsExit {A} code.

Definition M (A : Type) : Type := list Event -> Res A * list Event.

Definition ret {A : Type} (a : A) : M A := fun t => (Done a, t).

Definition bind {A B : Type} (m : M A) (k : A -> M B) : M B :=
  fun t =>
    match m t with
    | (Done a, t') => k a t'
    | (OsExit code, t') => (OsExit code, t')
    end.

Declare Scope go_scope.
Delimit Scope go_scope with go.
Notation "'do' x <- m ; k" := (bind m (fun x => k))
  (at level 10, x pattern, m at level 100, k at level 200,
   format "'[v' 'do'  x  <-  m ; '/' k ']'") : go_scope.
Notation "'run' m ; k" := (bind m (fun _ => k))
  (at level 10, m at level 100, k at level 200,
   format "'[v' 'run'  m ; '/' k ']'") : go_scope.
Local Open Scope go_scope.

Definition emit (e : Event) : M unit := fun t => (Done tt, t ++ [e]).

(** [log.Printf] *)
Definition log_Printf (msg : string) : M unit := emit (Log msg).

(** [fmt.Printf] *)
Definition fmt_Printf (msg : string) : M unit := emit (Stdout msg).

(** [log.Fatalf]: [log.Printf] followed by [os.Exit(1)]. *)
Definition log_Fatalf {A : Type} (msg : string) : M A :=
  fun t => (OsExit 1, t ++ [Log msg]).

(** [httpClient.Do(req)] *)
Definition httpClient_Do (env : Env) (client : Client) (req : Request)
  : M (Response + error) :=
  fun t => (Done (http_Do env (sent t) client req), t ++ [Do client req]).

(** ** Log lines

    The texts that the format strings of [main.go] produce; [%v] of a status
    code is its decimal form. *)

(** [ERROR: failed to read CA file (%s): %s] *)
Definition ca_file_message (path : string) (e : error) : string :=
  "ERROR: failed to read CA file (" +:+ path +:+ "): " +:+ e.

(** [ERROR: %s\n] *)
Definition error_message (e : error) : string := "ERROR: " +:+ e +:+ nl.

(** [ERROR: %v %s (%s)\n], with the status code, its text and [req.URL] *)
Definition not_found_message (env : Env) (code : Z) (url : string) : string :=
  "ERROR: " +:+ pretty code +:+ " " +:+ http_StatusText env code
  +:+ " (" +:+ url_String env url +:+ ")" +:+ nl.

(** [ERROR: %v %s], with the status code and its text *)
Definition rejected_message (env : Env) (code : Z) : string :=
  "ERROR: " +:+ pretty code +:+ " " +:+ http_StatusText env code.

(** [runbook job "%s" already exists (%v: %s)\n] *)
Definition conflict_message (env : Env) (name : string) (code : Z) : string :=
  "runbook job " +:+ dquote +:+ name +:+ dquote +:+ " already exists ("
  +:+ pretty code +:+ ": " +:+ http_StatusText env code +:+ ")" +:+ nl.

(** [registered runbook Job "%s"] *)
Definition registered_message (name : string) : string :=
  "registered runbook Job " +:+ dquote +:+ name +:+ dquote.

(** [requested runbook Job "%s" execution on subscriptions: %s\n] *)
Definition requested_message (name subscriptions : string) : string :=
  "requested runbook Job " +:+ dquote +:+ name +:+ dquote
  +:+ " execution on subscriptions: " +:+ subscriptions +:+ nl.

(** [registering runbook job ID %s/%s with --command %s\n] *)
Definition registering_message (cfg : config.Config) (job : types.CheckConfig) : string :=
  "registering runbook job ID " +:+ types.Namespace (types.metadata job) +:+ "/"
  +:+ types.Name (types.metadata job) +:+ " with --command "
  +:+ config.Command cfg +:+ nl.

(** ** The program *)

Definition is_empty (s : string) : bool := Nat.eqb (String.length s) 0.

Definition checkArgs (cfg : config.Config) : Z * option error :=
  if is_empty (config.SensuAPIUrl cfg) then
    (CheckStateCritical,
     Some "--sensu-api-url flag or $SENSU_API_URL environment variable must be set")
  else if is_empty (config.Namespace cfg) then
    (CheckStateCritical,
     Some "--namespace flag or $SENSU_NAMESPACE environment variable must be set")
  else if is_empty (config.Command cfg) then
    (CheckStateWarning,
     Some "--command flag or $SENSU_RUNBOOK_COMMAND environment variable must be set")
  else if is_empty (config.Subscriptions cfg) then
    (CheckStateWarning,
     Some "--subscriptions flag or $SENSU_RUNBOOK_SUBSCRIPTIONS environment variable must be set")
  else (CheckStateOK, None).

Definition generateCheckConfig (cfg : config.Config)
  : types.CheckConfig * option error :=
  let '(timeout, _) := strconv_Atoi (config.Timeout cfg) in
  let labels : gmap string string := ∅ in
  let job :=
    {| types.metadata :=
         {| types.Name := config.JobID cfg;
            types.Namespace := config.Namespace cfg;
            types.Labels := labels |};
       types.Command := config.Command cfg;
       types.Publish := false;
       types.Subscriptions := ["none"];
       types.Interval := 10;
       types.Timeout := uint32 timeout;
       types.RuntimeAssets := [] |} in
  let job :=
    if negb (is_empty (config.RuntimeAssets cfg)) then
      {| types.metadata := types.metadata job;
         types.Command := types.Command job;
         types.Publish := types.Publish job;
         types.Subscriptions := types.Subscriptions job;
         types.Interval := types.Interval job;
         types.Timeout := types.Timeout job;
         types.RuntimeAssets := strings_Split (config.RuntimeAssets cfg) comma |}
    else job in
  (job, None).

(** [LoadCACerts] loads the system cert pool. *)
Definition LoadCACerts (env : Env) (path : string) : M (CertPool * option error) :=
  let '(rootCAs, err) := x509_SystemCertPool env in
  do rootCAs <-
    match err with
    | Some e =>
        run log_Printf ("ERROR: failed to load system cert pool: " +:+ e);
        ret (Some x509_NewCertPool)
    | None => ret rootCAs
    end;
  let rootCAs := match rootCAs with None => x509_NewCertPool | Some pool => pool end in
  if negb (String.eqb path "") then
    match ioutil_ReadFile env path with
    | inr e => log_Fatalf (ca_file_message path e)
    | inl certs => ret (x509_AppendCertsFromPEM env rootCAs certs, None)
    end
  else ret (rootCAs, None).

Definition initHTTPClient (env : Env) (cfg : config.Config) : M Client :=
  do (certs, err) <- LoadCACerts env (config.SensuTrustedCaFile cfg);
  match err with
  | Some e => log_Fatalf (error_message e)
  | None => ret {| RootCAs := certs |}
  end.

(** [http.NewRequest] with a valid method. *)
Definition http_NewRequest (env : Env) (method url : string) (body : Payload)
  : Request + error :=
  match url_Parse env url with
  | Some e => inr e
  | None => inl {| Method := method; URL := url; Header := []; Body := body |}
  end.

Fixpoint header_set (h : list (string * string)) (key value : string)
  : list (string * string) :=
  match h with
  | [] => [(key, value)]
  | (k, v) :: h' =>
      if String.eqb k key then (key, value) :: h'
      else (k, v) :: header_set h' key value
  end.

(** [req.Header.Set(key, value)] *)
Definition Header_Set (req : Request) (key value : string) : Request :=
  {| Method := Method req; URL := URL req;
     Header := header_set (Header req) key value; Body := Body req |}.

Definition createURL (cfg : config.Config) : string :=
  config.SensuAPIUrl cfg +:+ "/api/core/v2/namespaces/" +:+ config.Namespace cfg
  +:+ "/checks".

Definition executeURL (cfg : config.Config) : string :=
  config.SensuAPIUrl cfg +:+ "/api/core/v2/namespaces/" +:+ config.Namespace cfg
  +:+ "/checks/" +:+ config.JobID cfg +:+ "/execute".

Definition authorize (cfg : config.Config) (req : Request) : Request :=
  Header_Set
    (Header_Set req "Authorization" ("Bearer " +:+ config.SensuAccessToken cfg))
    "Content-Type" "application/json".

Definition createJob (env : Env) (cfg : config.Config) (job : types.CheckConfig)
  : M (option error) :=
  match http_NewRequest env "POST" (createURL cfg) (JSONCheckConfig job) with
  | inr e => log_Fatalf (error_message e)
  | inl req =>
      do httpClient <- initHTTPClient env cfg;
      let req := authorize cfg req in
      do resp <- httpClient_Do env httpClient req;
      match resp with
      | inr e => log_Fatalf (error_message e)
      | inl resp =>
          let name := types.Name (types.metadata job) in
          if (StatusCode resp =? 404)%Z then
            log_Fatalf (not_found_message env (StatusCode resp) (URL req))
          else if (StatusCode resp =? 409)%Z then
            run log_Printf (conflict_message env name (StatusCode resp));
            ret None
          else if (StatusCode resp >=? 300)%Z then
            log_Fatalf (rejected_message env (StatusCode resp))
          else if (StatusCode resp =? 201)%Z then
            run log_Printf (registered_message name);
            ret None
          else
            match ReadAll resp with
            | inr e => log_Fatalf (error_message e)
            | inl b => run fmt_Printf (b +:+ nl); ret None
            end
      end
  end.

Definition jobRequest (cfg : config.Config) (job : types.CheckConfig) : JobRequest :=
  {| Check := types.Name (types.metadata job);
     Subscriptions := strings_Split (config.Subscriptions cfg) comma |}.

Definition executeJob (env : Env) (cfg : config.Config) (job : types.CheckConfig)
  : M (option error) :=
  match http_NewRequest env "POST" (executeURL cfg) (JSONJobRequest (jobRequest cfg job)) with
  | inr e => log_Fatalf (error_message e)
  | inl req =>
      do httpClient <- initHTTPClient env cfg;
      let req := authorize cfg req in
      do resp <- httpClient_Do env httpClient req;
      match resp with
      | inr e => log_Fatalf (error_message e)
      | inl resp =>
          let name := types.Name (types.metadata job) in
          if (StatusCode resp =? 404)%Z then
            log_Fatalf (not_found_message env (StatusCode resp) (URL req))
          else if (StatusCode resp >=? 300)%Z then
            log_Fatalf (rejected_message env (StatusCode resp))
          else if (StatusCode resp =? 202)%Z then
            run log_Printf (requested_message name (config.Subscriptions cfg));
            ret None
          else
            match ReadAll resp with
            | inr e => log_Fatalf (error_message e)
            | inl b => run fmt_Printf (b +:+ nl); ret None
            end
      end
  end.

(** The control flow of [executePlaybook], over the three steps it calls. *)
Definition executePlaybookWith
    (cfg : config.Config)
    (generate : types.CheckConfig * option error)
    (create execute : types.CheckConfig -> M (option error))
  : M (Z * option error) :=
  let '(job, err) := generate in
  match err with
  | Some e => ret (CheckStateCritical, Some ("ERROR: " +:+ e))
  | None =>
      run log_Printf (registering_message cfg job);
      do err <- create job;
      match err with
      | Some e => ret (CheckStateCritical, Some e)
      | None =>
          do err <- execute job;
          match err with
          | Some _ => ret (CheckStateCritical, None)
          | None => ret (CheckStateOK, None)
          end
      end
  end.

Definition executePlaybook (env : Env) (cfg : config.Config) : M (Z * option error) :=
  executePlaybookWith cfg (generateCheckConfig cfg) (createJob env cfg) (executeJob env cfg).

(** Modelled from the spec: the check workflow of sensu-plugin-sdk
    ([sensu.NewGoCheck(..., checkArgs, executePlaybook, ...)] followed by
    [Execute]) is not part of the sources.  Input problems are detected
    pre-flight, before any network call: the validation function runs first,
    and the execute function runs only when validation reported no error. *)
Definition goCheckWorkflow
    (validationFunction : Z * option error)
    (executeFunction : M (Z * option error))
  : M (Z * option error) :=
  let '(status, err) := validationFunction in
  match err with
  | Some e => ret (status, Some ("error validating input: " +:+ e))
  | None =>
      do (status, err) <- executeFunction;
      match err with
      | Some e => ret (status, Some ("error executing check: " +:+ e))
      | None => ret (status, None)
      end
  end.

Definition main (env : Env) (cfg : config.Config) : M (Z * option error) :=
  goCheckWorkflow (checkArgs cfg) (executePlaybook env cfg).

(** Two runs of the same program, one after the other, against the same
    outside world: the second run starts from the history the first left. *)
Definition twice {A : Type} (m : M A) (t : list Event) : Res A * Res A * list Event :=
  let '(r1, t1) := m t in
  let '(r2, t2) := m t1 in
  (r1, r2, t2).

(** ** What the two phases send

    The request each phase hands to [httpClient.Do], and the client it is
    sent with, read off [createJob], [executeJob] and [LoadCACerts]. *)

Definition createRequest (cfg : config.Config) (job : types.CheckConfig) : Request :=
  authorize cfg
    {| Method := "POST"; URL := createURL cfg; Header := [];
       Body := JSONCheckConfig job |}.

Definition executeRequest (cfg : config.Config) (job : types.CheckConfig) : Request :=
  authorize cfg
    {| Method := "POST"; URL := executeURL cfg; Header := [];
       Body := JSONJobRequest (jobRequest cfg job) |}.

(** The pool [LoadCACerts] starts from: the system pool when there is one. *)
Definition base_pool (env : Env) : CertPool :=
  match x509_SystemCertPool env with
  | (Some pool, None) => pool
  | _ => x509_NewCertPool
  end.

Definition pool_log (env : Env) : list Event :=
  match snd (x509_SystemCertPool env) with
  | Some e => [Log ("ERROR: failed to load system cert pool: " +:+ e)]
  | None => []
  end.

(** The trusted-CA file is not asked for, or can be read. *)
Definition ca_file_ok (env : Env) (cfg : config.Config) : bool :=
  String.eqb (config.SensuTrustedCaFile cfg) ""
  || match ioutil_ReadFile env (config.SensuTrustedCaFile cfg) with
     | inl _ => true
     | inr _ => false
     end.

Definition client_of (env : Env) (cfg : config.Config) : Client :=
  {| RootCAs :=
       if String.eqb (config.SensuTrustedCaFile cfg) "" then base_pool env
       else match ioutil_ReadFile env (config.SensuTrustedCaFile cfg) with
            | inl certs => x509_AppendCertsFromPEM env (base_pool env) certs
            | inr _ => base_pool env
            end |}.

(** ** Sample configurations and environments *)

Definition sample_config : config.Config :=
  {| config.Namespace := "default";
     config.JobID := "3f2c1a";
     config.Command := "uptime";
     config.Subscriptions := "web,db,cache";
     config.Timeout := "10";
     config.RuntimeAssets := "";
     config.SensuAPIUrl := "https://sensu.example:8080";
     config.SensuAccessToken := "secret";
     config.SensuTrustedCaFile := "" |}.

Definition with_fields (url ns cmd subs : string) : config.Config :=
  {| config.Namespace := ns;
     config.JobID := config.JobID sample_config;
     config.Command := cmd;
     config.Subscriptions := subs;
     config.Timeout := config.Timeout sample_config;
     config.RuntimeAssets := config.RuntimeAssets sample_config;
     config.SensuAPIUrl := url;
     config.SensuAccessToken := config.SensuAccessToken sample_config;
     config.SensuTrustedCaFile := config.SensuTrustedCaFile sample_config |}.

Definition with_timeout (timeout : string) : config.Config :=
  {| config.Namespace := config.Namespace sample_config;
     config.JobID := config.JobID sample_config;
     config.Command := config.Command sample_config;
     config.Subscriptions := config.Subscriptions sample_config;
     config.Timeout := timeout;
     config.RuntimeAssets := config.RuntimeAssets sample_config;
     config.SensuAPIUrl := config.SensuAPIUrl sample_config;
     config.SensuAccessToken := config.SensuAccessToken sample_config;
     config.SensuTrustedCaFile := config.SensuTrustedCaFile sample_config |}.

Definition with_ca_file (path : string) : config.Config :=
  {| config.Namespace := config.Namespace sample_config;
     config.JobID := config.JobID sample_config;
     config.Command := config.Command sample_config;
     config.Subscriptions := config.Subscriptions sample_config;
     config.Timeout := config.Timeout sample_config;
     config.RuntimeAssets := config.RuntimeAssets sample_config;
     config.SensuAPIUrl := config.SensuAPIUrl sample_config;
     config.SensuAccessToken := config.SensuAccessToken sample_config;
     config.SensuTrustedCaFile := path |}.

Definition sample_StatusText (code : Z) : string :=
  if (code =? 201)%Z then "Created"
  else if (code =? 202)%Z then "Accepted"
  else if (code =? 404)%Z then "Not Found"
  else if (code =? 409)%Z then "Conflict"
  else if (code =? 500)%Z then "Internal Server Error"
  else "".

(** A remote platform that remembers the checks created so far: creating a
    check that exists is a conflict, executing one that does not is not
    found. *)
Fixpoint registered (name ns : string) (history : list Request) : bool :=
  match history with
  | [] => false
  | req :: rest =>
      match Body req with
      | JSONCheckConfig job =>
          (String.eqb (types.Name (types.metadata job)) name
           && String.eqb (types.Namespace (types.metadata job)) ns)
          || registered name ns rest
      | JSONJobRequest _ => registered name ns rest
      end
  end.

Definition platform_Do (ns : string) (history : list Request) (client : Client)
    (req : Request) : Response + error :=
  match Body req with
  | JSONCheckConfig job =>
      if registered (types.Name (types.metadata job))
                    (types.Namespace (types.metadata job)) history
      then inl {| StatusCode := 409; ReadAll := inl "" |}
      else inl {| StatusCode := 201; ReadAll := inl "" |}
  | JSONJobRequest jobRequest =>
      if registered (Check jobRequest) ns history
      then inl {| StatusCode := 202; ReadAll := inl "" |}
      else inl {| StatusCode := 404; ReadAll := inl "" |}
  end.

(** An environment that answers the n-th exchange with the n-th entry of a
    script, and refuses the connection once the script is used up. *)
Definition scripted_Do (script : list (Response + error)) (history : list Request)
    (client : Client) (req : Request) : Response + error :=
  nth (length history) script (inr "connection refused").

Definition sample_ReadFile (path : string) : string + error :=
  if String.eqb path "/etc/sensu/ca.pem" then inl "-----BEGIN CERTIFICATE-----"
  else inr ("open " +:+ path +:+ ": no such file or directory").

Definition sample_env (answer : list Request -> Client -> Request -> Response + error) : Env :=
  {| x509_SystemCertPool := (Some ["system-root"], None);
     ioutil_ReadFile := sample_ReadFile;
     x509_AppendCertsFromPEM := fun pool certs => pool ++ [certs];
     url_Parse := fun _ => None;
     url_String := fun url => url;
     http_StatusText := sample_StatusText;
     http_Do := answer |}.

Definition platform_env : Env := sample_env (platform_Do "default").

Definition scripted_env (script : list (Response + error)) : Env :=
  sample_env (scripted_Do script).

(** The same, on a host without a system cert pool. *)
Definition no_system_pool_env : Env :=
  {| x509_SystemCertPool := (None, Some "crypto/x509: system root pool is not available");
     ioutil_ReadFile := sample_ReadFile;
     x509_AppendCertsFromPEM := fun pool certs => pool ++ [certs];
     url_Parse := fun _ => None;
     url_String := fun url => url;
     http_StatusText := sample_StatusText;
     http_Do := platform_Do "default" |}.

Definition status (code : Z) : Response + error :=
  inl {| StatusCode := code; ReadAll := inl "" |}.

(** ** The option table

    Each entry of [options] hands the plugin SDK a pointer into [config]
    ([Value: &config.X]); the SDK can write [config] only through these. *)

(** A pointer to a string field of [config]. *)
Inductive ConfigField : Type :=
| ref_Namespace
| ref_JobID
| ref_Command
| ref_Subscriptions
| ref_Timeout
| ref_RuntimeAssets
| ref_SensuAPIUrl
| ref_SensuAccessToken
| ref_SensuTrustedCaFile.

Module sensu.
Record PluginConfigOption : Type := mkPluginConfigOption {
  Path : string;
  Env : string;
  Argument : string;
  Shorthand : string;
  Default : string;
  Usage : string;
  Value : ConfigField
}.
End sensu.

(** The assignment [*p = v]. *)
Definition store (p : ConfigField) (v : string) (cfg : config.Config) : config.Config :=
  let f (q : ConfigField) (old : string) : string :=
    match p, q with
    | ref_Namespace, ref_Namespace
    | ref_JobID, ref_JobID
    | ref_Command, ref_Command
    | ref_Subscriptions, ref_Subscriptions
    | ref_Timeout, ref_Timeout
    | ref_RuntimeAssets, ref_RuntimeAssets
    | ref_SensuAPIUrl, ref_SensuAPIUrl
    | ref_SensuAccessToken, ref_SensuAccessToken
    | ref_SensuTrustedCaFile, ref_SensuTrustedCaFile => v
    | _, _ => old
    end in
  {| config.Namespace := f ref_Namespace (config.Namespace cfg);
     config.JobID := f ref_JobID (config.JobID cfg);
     config.Command := f ref_Command (config.Command cfg);
     config.Subscriptions := f ref_Subscriptions (config.Subscriptions cfg);
     config.Timeout := f ref_Timeout (config.Timeout cfg);
     config.RuntimeAssets := f ref_RuntimeAssets (config.RuntimeAssets cfg);
     config.SensuAPIUrl := f ref_SensuAPIUrl (config.SensuAPIUrl cfg);
     config.SensuAccessToken := f ref_SensuAccessToken (config.SensuAccessToken cfg);
     config.SensuTrustedCaFile :=
       f ref_SensuTrustedCaFile (config.SensuTrustedCaFile cfg) |}.

(** The table [options]; [uuid] is the value of [uuid.New().String()] when
    the package is initialised. *)
Definition options (uuid : string) : list sensu.PluginConfigOption :=
  [ {| sensu.Path := "id";
       sensu.Env := "SENSU_RUNBOOK_JOB_ID";
       sensu.Argument := "id";
       sensu.Shorthand := "i";
       sensu.Default := uuid;
       sensu.Usage := "The ID or name to use for the job (i.e. defaults to a random UUIDv4)";
       sensu.Value := ref_JobID |};
    {| sensu.Path := "command";
       sensu.Env := "SENSU_RUNBOOK_COMMAND";
       sensu.Argument := "command";
       sensu.Shorthand := "c";
       sensu.Default := "";
       sensu.Usage := "The command that should be executed by the Sensu Go agent(s)";
       sensu.Value := ref_Command |};
    {| sensu.Path := "timeout";
       sensu.Env := "SENSU_RUNBOOK_TIMEOUT";
       sensu.Argument := "timeout";
       sensu.Shorthand := "t";
       sensu.Default := "10";
       sensu.Usage := "Command execution timeout, in seconds";
       sensu.Value := ref_Command |};
    {| sensu.Path := "runtime-assets";
       sensu.Env := "SENSU_RUNBOOK_ASSETS";
       sensu.Argument := "runtime-assets";
       sensu.Shorthand := "a";
       sensu.Default := "";
       sensu.Usage := "Comma-separated list of assets to distribute with the command(s)";
       sensu.Value := ref_RuntimeAssets |};
    {| sensu.Path := "subscriptions";
       sensu.Env := "SENSU_RUNBOOK_SUBSCRIPTIONS";
       sensu.Argument := "subscriptions";
       sensu.Shorthand := "s";
       sensu.Default := "";
       sensu.Usage := "Comma-separated list of subscriptions to execute the command(s) on";
       sensu.Value := ref_Subscriptions |};
    {| sensu.Path := "namespace";
       sensu.Env := "SENSU_NAMESPACE";
       sensu.Argument := "namespace";
       sensu.Shorthand := "n";
       sensu.Default := "";
       sensu.Usage := "Sensu Namespace to perform the runbook automation (defaults to $SENSU_NAMESPACE)";
       sensu.Value := ref_Namespace |};
    {| sensu.Path := "sensu-api-url";
       sensu.Env := "SENSU_API_URL";
       sensu.Argument := "sensu-api-url";
       sensu.Shorthand := "";
       sensu.Default := "";
       sensu.Usage := "Sensu API URL (defaults to $SENSU_API_URL)";
       sensu.Value := ref_SensuAPIUrl |};
    {| sensu.Path := "sensu-access-token";
       sensu.Env := "SENSU_ACCESS_TOKEN";
       sensu.Argument := "sensu-access-token";
       sensu.Shorthand := "";
       sensu.Default := "";
       sensu.Usage := "Sensu API Access Token (defaults to $SENSU_ACCESS_TOKEN)";
       sensu.Value := ref_SensuAccessToken |};
    {| sensu.Path := "sensu-trusted-ca-file";
       sensu.Env := "SENSU_TRUSTED_CA_FILE";
       sensu.Argument := "sensu-trusted-ca-file";
       sensu.Shorthand := "";
       sensu.Default := "";
       sensu.Usage := "Sensu API Trusted Certificate Authority File (defaults to $SENSU_TRUSTED_CA_FILE)";
       sensu.Value := ref_SensuTrustedCaFile |} ].

(** Any series of assignments of values to options, in any order and with
    repetitions: each one writes through the option's [Value] pointer. *)
Fixpoint assign (writes : list (sensu.PluginConfigOption * string))
    (cfg : config.Config) : config.Config :=
  match writes with
  | [] => cfg
  | (o, v) :: rest => assign rest (store (sensu.Value o) v cfg)
  end.

(** The package-level [config] before any option is read: every string field
    has its zero value. *)
Definition initial_config : config.Config :=
  {| config.Namespace := "";
     config.JobID := "";
     config.Command := "";
     config.Subscriptions := "";
     config.Timeout := "";
     config.RuntimeAssets := "";
     config.SensuAPIUrl := "";
     config.SensuAccessToken := "";
     config.SensuTrustedCaFile := "" |}.

(** [strings.Count] for a single byte. *)
Fixpoint count_byte (s : string) (b : ascii) : nat :=
  match s with
  | EmptyString => O
  | String c s' => if Ascii.eqb c b then S (count_byte s' b) else count_byte s' b
  end.

(** Whether [createJob] returns nil for this answer: the conflict, or a
    status below 300 that is "created" or comes with a readable body. *)
Definition create_succeeds (r : Response) : Prop :=
  StatusCode r = 409
  \/ (StatusCode r < 300
      /\ (StatusCode r = 201 \/ exists b, ReadAll r = inl b)).

(** Whether [executeJob] returns nil for this answer: a status below 300
    that is "accepted" or comes with a readable body. *)
Definition execute_succeeds (r : Response) : Prop :=
  StatusCode r < 300
  /\ (StatusCode r = 202 \/ exists b, ReadAll r = inl b).

Definition with_assets (assets : string) : config.Config :=
  store ref_RuntimeAssets assets sample_config.

(** One value for each option of the table, in the table's order. *)
Definition sample_writes : list (sensu.PluginConfigOption * string) :=
  combine (options "1b9d6bcd-bbfd-4b2d-9b5d-ab8dfbbd4bed")
    ["nightly"; "uptime"; "30"; ""; "web"; "default"; "https://sensu.example:8080";
     "secret"; ""].

(** * Properties *)

(** ** Traces *)

Lemma sent_app (t1 t2 : list Event) : sent (t1 ++ t2) = sent t1 ++ sent t2.
Proof.
  induction t1 as [|e t1 IH]; [reflexivity|].
  destruct e; simpl; rewrite IH; reflexivity.
Qed.

Lemma sent_pool_log (env : Env) : sent (pool_log env) = [].
Proof. unfold pool_log. destruct (snd (x509_SystemCertPool env)); reflexivity. Qed.

Lemma sent_log (t : list Event) (msg : string) : sent (t ++ [Log msg]) = sent t.
Proof. rewrite sent_app. simpl. apply app_nil_r. Qed.

Lemma sent_stdout (t : list Event) (msg : string) : sent (t ++ [Stdout msg]) = sent t.
Proof. rewrite sent_app. simpl. apply app_nil_r. Qed.

Lemma sent_do (t : list Event) (client : Client) (req : Request) :
  sent (t ++ [Do client req]) = sent t ++ [req].
Proof. rewrite sent_app. reflexivity. Qed.

(** ** Transport set-up *)

(** [initHTTPClient] in closed form: it returns [client_of] unless a CA file
    was asked for and cannot be read, in which case the process exits. *)
Lemma initHTTPClient_eq (env : Env) (cfg : config.Config) (t : list Event) :
  initHTTPClient env cfg t =
  if String.eqb (config.SensuTrustedCaFile cfg) "" then
    (Done (client_of env cfg), t ++ pool_log env)
  else
    match ioutil_ReadFile env (config.SensuTrustedCaFile cfg) with
    | inl _ => (Done (client_of env cfg), t ++ pool_log env)
    | inr e =>
        (OsExit 1,
         (t ++ pool_log env)
         ++ [Log (ca_file_message (config.SensuTrustedCaFile cfg) e)])
    end.
Proof.
  unfold initHTTPClient, LoadCACerts, client_of, base_pool, pool_log, bind, ret,
    log_Printf, log_Fatalf, emit, ca_file_message.
  destruct (x509_SystemCertPool env) as [[pool|] [e|]]; simpl;
    destruct (String.eqb (config.SensuTrustedCaFile cfg) ""); simpl;
    try destruct (ioutil_ReadFile env (config.SensuTrustedCaFile cfg)); simpl;
    rewrite ?app_nil_r; reflexivity.
Qed.

Lemma initHTTPClient_ok (env : Env) (cfg : config.Config) (t : list Event) :
  ca_file_ok env cfg = true ->
  initHTTPClient env cfg t = (Done (client_of env cfg), t ++ pool_log env).
Proof.
  intros Hok. rewrite initHTTPClient_eq. unfold ca_file_ok in Hok.
  destruct (String.eqb (config.SensuTrustedCaFile cfg) ""); [reflexivity|].
  destruct (ioutil_ReadFile env (config.SensuTrustedCaFile cfg)); [reflexivity|].
  discriminate Hok.
Qed.

Lemma initHTTPClient_unreadable (env : Env) (cfg : config.Config) (t : list Event)
    (e : error) :
  config.SensuTrustedCaFile cfg <> "" ->
  ioutil_ReadFile env (config.SensuTrustedCaFile cfg) = inr e ->
  initHTTPClient env cfg t =
  (OsExit 1,
   (t ++ pool_log env) ++ [Log (ca_file_message (config.SensuTrustedCaFile cfg) e)]).
Proof.
  intros Hpath Hread. rewrite initHTTPClient_eq, Hread.
  destruct (String.eqb_spec (config.SensuTrustedCaFile cfg) ""); [contradiction|].
  reflexivity.
Qed.

(** [initHTTPClient] itself never talks to the network. *)
Lemma initHTTPClient_sent (env : Env) (cfg : config.Config) (t : list Event) :
  sent (snd (initHTTPClient env cfg t)) = sent t.
Proof.
  rewrite initHTTPClient_eq.
  destruct (String.eqb (config.SensuTrustedCaFile cfg) "");
    [|destruct (ioutil_ReadFile env (config.SensuTrustedCaFile cfg))]; simpl;
    rewrite ?sent_log, sent_app, sent_pool_log; apply app_nil_r.
Qed.

(** ** The two phases, case by case *)

Ltac phase_start Hurl Hca Hdo :=
  unfold createJob, executeJob, http_NewRequest; rewrite Hurl;
  unfold bind; rewrite (initHTTPClient_ok _ _ _ Hca);
  unfold httpClient_Do; rewrite sent_app, sent_pool_log, app_nil_r;
  unfold createRequest, executeRequest in Hdo; rewrite Hdo; cbv beta iota.

Ltac by_status code :=
  match goal with
  | |- context [(?c =? code)%Z] =>
      destruct (Z.eqb_spec c code); try lia; try contradiction
  end.

Ltac by_threshold :=
  match goal with
  | |- context [(?c >=? 300)%Z] =>
      rewrite (Z.geb_leb c 300); destruct (Z.leb_spec 300 c); try lia
  end.

Section Phases.
Variable env : Env.
Variable cfg : config.Config.
Variable job : types.CheckConfig.
Variable t : list Event.

Section Create.
Variable r : Response.
Hypothesis Hurl : url_Parse env (createURL cfg) = None.
Hypothesis Hca : ca_file_ok env cfg = true.
Hypothesis Hdo : http_Do env (sent t) (client_of env cfg) (createRequest cfg job) = inl r.

Let t1 := (t ++ pool_log env) ++ [Do (client_of env cfg) (createRequest cfg job)].

Lemma createJob_not_found :
  StatusCode r = 404 ->
  createJob env cfg job t =
  (OsExit 1, t1 ++ [Log (not_found_message env (StatusCode r) (createURL cfg))]).
Proof.
  intros Hcode. phase_start Hurl Hca Hdo. by_status 404. reflexivity.
Qed.

Lemma createJob_conflict :
  StatusCode r = 409 ->
  createJob env cfg job t =
  (Done None,
   t1 ++ [Log (conflict_message env (types.Name (types.metadata job)) (StatusCode r))]).
Proof.
  intros Hcode. phase_start Hurl Hca Hdo. by_status 404. by_status 409.
  reflexivity.
Qed.


Lemma createJob_created :
  StatusCode r = 201 ->
  createJob env cfg job t =
  (Done None,
   t1 ++ [Log (registered_message (types.Name (types.metadata job)))]).
Proof.
  intros Hcode. phase_start Hurl Hca Hdo.
  by_status 404. by_status 409. by_threshold. by_status 201. reflexivity.
Qed.
End Create.

Section Execute.
Variable r : Response.
Hypothesis Hurl : url_Parse env (executeURL cfg) = None.
Hypothesis Hca : ca_file_ok env cfg = true.
Hypothesis Hdo : http_Do env (sent t) (client_of env cfg) (executeRequest cfg job) = inl r.

Let t1 := (t ++ pool_log env) ++ [Do (client_of env cfg) (executeRequest cfg job)].

Lemma executeJob_not_found :
  StatusCode r = 404 ->
  executeJob env cfg job t =
  (OsExit 1, t1 ++ [Log (not_found_message env (StatusCode r) (executeURL cfg))]).
Proof.
  intros Hcode. phase_start Hurl Hca Hdo. by_status 404. reflexivity.
Qed.

Lemma executeJob_rejected :
  300 <= StatusCode r -> StatusCode r <> 404 ->
  executeJob env cfg job t =
  (OsExit 1, t1 ++ [Log (rejected_message env (StatusCode r))]).
Proof.
  intros Hge H404. phase_start Hurl Hca Hdo.
  by_status 404. by_threshold. reflexivity.
Qed.

Lemma executeJob_accepted :
  StatusCode r = 202 ->
  executeJob env cfg job t =
  (Done None,
   t1 ++ [Log (requested_message (types.Name (types.metadata job))
                 (config.Subscriptions cfg))]).
Proof.
  intros Hcode. phase_start Hurl Hca Hdo.
  by_status 404. by_threshold. by_status 202. reflexivity.
Qed.
End Execute.

(** Whatever the environment answers, a phase either exits before it
    reaches the network, or hands exactly one request to it, the one built
    from the configuration, and then returns nil or exits.  It never
    returns a non-nil error: every failure branch ends in [log.Fatalf],
    which exits with status 1 before [return err]. *)
Lemma createJob_outcome :
  (fst (createJob env cfg job t) = OsExit 1
   /\ sent (snd (createJob env cfg job t)) = sent t)
  \/ ((fst (createJob env cfg job t) = Done None
       \/ fst (createJob env cfg job t) = OsExit 1)
      /\ sent (snd (createJob env cfg job t)) = sent t ++ [createRequest cfg job]).
Proof.
  unfold createJob, http_NewRequest.
  destruct (url_Parse env (createURL cfg)) as [e|].
  { left. unfold log_Fatalf. simpl. split; [reflexivity | apply sent_log]. }
  unfold bind. rewrite initHTTPClient_eq.
  assert (Hpre : sent (t ++ pool_log env) = sent t)
    by (rewrite sent_app, sent_pool_log; apply app_nil_r).
  destruct (String.eqb (config.SensuTrustedCaFile cfg) "");
    [|destruct (ioutil_ReadFile env (config.SensuTrustedCaFile cfg));
      [|left; simpl; rewrite sent_log; split; [reflexivity | exact Hpre]]];
    right; unfold httpClient_Do; cbv beta iota;
    fold (createRequest cfg job);
    (destruct (http_Do env (sent (t ++ pool_log env)) (client_of env cfg)
                 (createRequest cfg job)) as [resp|e];
     [repeat match goal with
             | |- context [if ?b then _ else _] => destruct b
             end;
      try destruct (ReadAll resp)|]);
    unfold log_Fatalf, log_Printf, fmt_Printf, emit, ret; simpl;
    rewrite ?sent_log, ?sent_stdout, sent_do, Hpre; auto.
Qed.

Lemma executeJob_outcome :
  (fst (executeJob env cfg job t) = OsExit 1
   /\ sent (snd (executeJob env cfg job t)) = sent t)
  \/ ((fst (executeJob env cfg job t) = Done None
       \/ fst (executeJob env cfg job t) = OsExit 1)
      /\ sent (snd (executeJob env cfg job t)) = sent t ++ [executeRequest cfg job]).
Proof.
  unfold executeJob, http_NewRequest.
  destruct (url_Parse env (executeURL cfg)) as [e|].
  { left. unfold log_Fatalf. simpl. split; [reflexivity | apply sent_log]. }
  unfold bind. rewrite initHTTPClient_eq.
  assert (Hpre : sent (t ++ pool_log env) = sent t)
    by (rewrite sent_app, sent_pool_log; apply app_nil_r).
  destruct (String.eqb (config.SensuTrustedCaFile cfg) "");
    [|destruct (ioutil_ReadFile env (config.SensuTrustedCaFile cfg));
      [|left; simpl; rewrite sent_log; split; [reflexivity | exact Hpre]]];
    right; unfold httpClient_Do; cbv beta iota;
    fold (jobRequest cfg job); fold (executeRequest cfg job);
    (destruct (http_Do env (sent (t ++ pool_log env)) (client_of env cfg)
                 (executeRequest cfg job)) as [resp|e];
     [repeat match goal with
             | |- context [if ?b then _ else _] => destruct b
             end;
      try destruct (ReadAll resp)|]);
    unfold log_Fatalf, log_Printf, fmt_Printf, emit, ret; simpl;
    rewrite ?sent_log, ?sent_stdout, sent_do, Hpre; auto.
Qed.

Lemma createJob_sent :
  sent (snd (createJob env cfg job t)) = sent t
  \/ sent (snd (createJob env cfg job t)) = sent t ++ [createRequest cfg job].
Proof. destruct createJob_outcome as [[_ H]|[_ H]]; auto. Qed.

Lemma executeJob_sent :
  sent (snd (executeJob env cfg job t)) = sent t
  \/ sent (snd (executeJob env cfg job t)) = sent t ++ [executeRequest cfg job].
Proof. destruct executeJob_outcome as [[_ H]|[_ H]]; auto. Qed.

Lemma createJob_result :
  fst (createJob env cfg job t) = Done None
  \/ fst (createJob env cfg job t) = OsExit 1.
Proof. destruct createJob_outcome as [[H _]|[[H|H] _]]; auto. Qed.

Lemma executeJob_result :
  fst (executeJob env cfg job t) = Done None
  \/ fst (executeJob env cfg job t) = OsExit 1.
Proof. destruct executeJob_outcome as [[H _]|[[H|H] _]]; auto. Qed.
End Phases.

(** ** Pre-flight check *)

Lemma is_empty_true (s : string) : is_empty s = true <-> s = "".
Proof. destruct s; simpl; split; intros H; first [reflexivity | discriminate H]. Qed.

Lemma is_empty_false (s : string) : is_empty s = false <-> s <> "".
Proof.
  destruct s; simpl; split; intros H; try discriminate; try reflexivity.
  contradiction.
Qed.

(** A configuration that [checkArgs] rejects never reaches [executePlaybook]:
    the run returns with the trace untouched. *)
Lemma main_rejected (env : Env) (cfg : config.Config) (t : list Event)
    (state : Z) (e : error) :
  checkArgs cfg = (state, Some e) ->
  main env cfg t = (Done (state, Some ("error validating input: " +:+ e)), t).
Proof. intros H. unfold main, goCheckWorkflow. rewrite H. reflexivity. Qed.

(** C1 (as stated, refuted): a configuration whose API URL is missing is
    classified Critical by [checkArgs], not Warning. *)
Lemma C1_missing_api_url_is_critical :
  config.SensuAPIUrl (with_fields "" "default" "uptime" "web") = ""
  /\ fst (checkArgs (with_fields "" "default" "uptime" "web")) = CheckStateCritical
  /\ fst (checkArgs (with_fields "" "default" "uptime" "web")) <> CheckStateWarning.
Proof. repeat split. discriminate. Qed.

(** C1 (amended): [checkArgs] classifies a missing API URL or namespace as
    Critical and, when both are present, a missing command or subscriptions
    string as Warning; it returns Critical exactly when the API URL or the
    namespace is missing.  In all four cases it reports an error and the run
    ends without any effect, so without a network call. *)
Theorem C1_checkArgs_classification (env : Env) (cfg : config.Config) (t : list Event) :
  (config.SensuAPIUrl cfg = "" \/ config.Namespace cfg = "" <->
   fst (checkArgs cfg) = CheckStateCritical)
  /\ (config.SensuAPIUrl cfg <> "" -> config.Namespace cfg <> "" ->
      config.Command cfg = "" \/ config.Subscriptions cfg = "" ->
      fst (checkArgs cfg) = CheckStateWarning)
  /\ (config.SensuAPIUrl cfg = "" \/ config.Namespace cfg = ""
      \/ config.Command cfg = "" \/ config.Subscriptions cfg = "" ->
      exists e e', snd (checkArgs cfg) = Some e
                   /\ main env cfg t = (Done (fst (checkArgs cfg), Some e'), t)).
Proof.
  assert (Hmain : forall state e, checkArgs cfg = (state, Some e) ->
            exists e0 e', snd (checkArgs cfg) = Some e0
              /\ main env cfg t = (Done (fst (checkArgs cfg), Some e'), t)).
  { intros state e H. exists e. eexists.
    rewrite (main_rejected env cfg t state e H), H. auto. }
  revert Hmain. unfold checkArgs.
  destruct (is_empty (config.SensuAPIUrl cfg)) eqn:Hu;
    [apply is_empty_true in Hu | apply is_empty_false in Hu];
    (destruct (is_empty (config.Namespace cfg)) eqn:Hn;
     [apply is_empty_true in Hn | apply is_empty_false in Hn]);
    (destruct (is_empty (config.Command cfg)) eqn:Hc;
     [apply is_empty_true in Hc | apply is_empty_false in Hc]);
    (destruct (is_empty (config.Subscriptions cfg)) eqn:Hs;
     [apply is_empty_true in Hs | apply is_empty_false in Hs]);
    intros Hmain; simpl;
    unfold CheckStateCritical, CheckStateWarning;
    (split; [split|split]); intros;
    first [ reflexivity | discriminate | tauto
          | eapply Hmain; reflexivity ].
Qed.

Lemma C1_checkArgs_classification_witness :
  fst (checkArgs (with_fields "https://sensu.example:8080" "default" "" "web"))
  = CheckStateWarning.
Proof.
  apply (C1_checkArgs_classification platform_env
           (with_fields "https://sensu.example:8080" "default" "" "web") []).
  - discriminate.
  - discriminate.
  - left. reflexivity.
Defined.

(** C7 (as stated, refuted): with the command missing and the API URL
    missing too, the run yields Critical, not Warning. *)
Lemma C7_missing_command_without_api_url_is_critical :
  config.Command (with_fields "" "default" "" "web") = ""
  /\ (exists e, main platform_env (with_fields "" "default" "" "web") []
                = (Done (CheckStateCritical, Some e), []))
  /\ CheckStateCritical <> CheckStateWarning.
Proof. split; [reflexivity|]. split; [eexists; reflexivity | discriminate]. Qed.

(** C7 (amended): for every configuration with a non-empty API URL and
    namespace whose command string or subscriptions string is empty, the run
    yields Warning, with an error, and leaves the trace untouched: no
    network request is issued. *)
Theorem C7_missing_command_or_subscriptions_is_warning
    (env : Env) (cfg : config.Config) (t : list Event) :
  config.SensuAPIUrl cfg <> "" -> config.Namespace cfg <> "" ->
  config.Command cfg = "" \/ config.Subscriptions cfg = "" ->
  exists e, main env cfg t = (Done (CheckStateWarning, Some e), t)
            /\ sent (snd (main env cfg t)) = sent t.
Proof.
  intros Hu Hn Hcs.
  assert (H : exists e, checkArgs cfg = (CheckStateWarning, Some e)).
  { unfold checkArgs.
    apply is_empty_false in Hu, Hn. rewrite Hu, Hn.
    destruct (is_empty (config.Command cfg)) eqn:Hc; [eexists; reflexivity|].
    destruct (is_empty (config.Subscriptions cfg)) eqn:Hs; [eexists; reflexivity|].
    apply is_empty_false in Hc, Hs. tauto. }
  destruct H as [e H]. eexists.
  rewrite (main_rejected env cfg t _ _ H). split; reflexivity.
Qed.

Lemma C7_missing_command_or_subscriptions_is_warning_witness :
  exists e,
    main platform_env (with_fields "https://sensu.example:8080" "default" "uptime" "") []
    = (Done (CheckStateWarning, Some e), [])
    /\ sent (snd (main platform_env
                    (with_fields "https://sensu.example:8080" "default" "uptime" "") []))
       = sent [].
Proof.
  apply (C7_missing_command_or_subscriptions_is_warning platform_env
           (with_fields "https://sensu.example:8080" "default" "uptime" "") []).
  - discriminate.
  - discriminate.
  - right. reflexivity.
Defined.

(** ** The job definition *)

Lemma generateCheckConfig_nil (cfg : config.Config) : snd (generateCheckConfig cfg) = None.
Proof.
  unfold generateCheckConfig.
  destruct (strconv_Atoi (config.Timeout cfg)); reflexivity.
Qed.

Lemma generateCheckConfig_metadata (cfg : config.Config) :
  types.metadata (fst (generateCheckConfig cfg))
  = {| types.Name := config.JobID cfg;
       types.Namespace := config.Namespace cfg;
       types.Labels := ∅ |}.
Proof.
  unfold generateCheckConfig.
  destruct (strconv_Atoi (config.Timeout cfg)).
  destruct (is_empty (config.RuntimeAssets cfg)); reflexivity.
Qed.

Lemma generateCheckConfig_Timeout (cfg : config.Config) :
  types.Timeout (fst (generateCheckConfig cfg))
  = uint32 (fst (strconv_Atoi (config.Timeout cfg))).
Proof.
  unfold generateCheckConfig.
  destruct (strconv_Atoi (config.Timeout cfg)).
  destruct (is_empty (config.RuntimeAssets cfg)); reflexivity.
Qed.

(** C3: the job definition that Create submits carries an empty labels map:
    [generateCheckConfig] allocates the map and never fills it, so neither
    [check_type] nor [source] is present. *)
Theorem C3_labels_are_empty (cfg : config.Config) :
  let job := fst (generateCheckConfig cfg) in
  Body (createRequest cfg job) = JSONCheckConfig job
  /\ types.Labels (types.metadata job) = ∅
  /\ types.Labels (types.metadata job) !! "check_type" = None
  /\ types.Labels (types.metadata job) !! "source" = None.
Proof.
  cbv zeta. rewrite generateCheckConfig_metadata. simpl.
  repeat split; apply lookup_empty.
Qed.

(** *** The timeout *)

Lemma digit_of_range (c : ascii) (d : Z) : digit_of c = Some d -> 0 <= d <= 9.
Proof.
  unfold digit_of.
  destruct (Z.leb_spec 48 (Z.of_N (N_of_ascii c))) as [Hlo|Hlo];
    destruct (Z.leb_spec (Z.of_N (N_of_ascii c)) 57) as [Hhi|Hhi]; simpl;
    intros Hd; first [discriminate Hd | injection Hd as <-; lia].
Qed.

Lemma cutoff10_value : cutoff10 = 1844674407370955162.
Proof. reflexivity. Qed.

Lemma maxUint64_value : maxUint64 = 18446744073709551615.
Proof. reflexivity. Qed.

(** [ParseUint]'s loop ends in one of three ways. *)
Lemma ParseUint_digits_cases (s : string) :
  forall n : Z,
    (exists v, ParseUint_digits n s = (v, None))
    \/ ParseUint_digits n s = (0, Some ErrSyntax)
    \/ ParseUint_digits n s = (maxUint64, Some ErrRange).
Proof.
  induction s as [|c s IH]; intros n; cbn [ParseUint_digits]; [left; eauto|].
  destruct (digit_of c) as [d|]; [|auto].
  destruct (n >=? cutoff10)%Z; [auto|].
  cbv zeta. destruct (n * 10 + d >? maxUint64)%Z; [auto|]. apply IH.
Qed.

(** [strconv.Atoi] ends in one of four ways: a syntax error with 0, a range
    error with the largest [int] (no minus sign) or the smallest (minus
    sign), or a value and no error. *)
Lemma Atoi_cases (s : string) :
  strconv_Atoi s = (0, Some ErrSyntax)
  \/ (fst (split_sign s) = false /\ strconv_Atoi s = (2 ^ 63 - 1, Some ErrRange))
  \/ (fst (split_sign s) = true /\ strconv_Atoi s = (- 2 ^ 63, Some ErrRange))
  \/ (exists v, strconv_Atoi s = (v, None)).
Proof.
  unfold strconv_Atoi. cbv zeta.
  destruct ((0 <? String.length s)%nat && (String.length s <? 19)%nat).
  - destruct (split_sign s) as [neg s1]. destruct s1 as [|c1 s1]; [left; reflexivity|].
    destruct (parse_digits 0 (String c1 s1)) as [n|]; [|left; reflexivity].
    right. right. right. eauto.
  - unfold strconv_ParseInt. destruct s as [|c s]; [left; reflexivity|].
    destruct (split_sign (String c s)) as [neg s0]. simpl fst.
    unfold strconv_ParseUint. destruct s0 as [|c0 s0]; [left; reflexivity|].
    destruct (ParseUint_digits_cases (String c0 s0) 0) as [[v Hu]|[Hu|Hu]]; rewrite Hu.
    + destruct neg; cbn [negb andb].
      * destruct (v >? 2 ^ 63)%Z; [right; right; left; auto|].
        right. right. right. eauto.
      * destruct (v >=? 2 ^ 63)%Z; [right; left; auto|].
        right. right. right. eauto.
    + left. reflexivity.
    + destruct neg; [right; right; left | right; left]; split; reflexivity.
Qed.

Lemma has_nondigit_parse_digits (k : nat) :
  forall (s : string) (acc : Z),
    has_nondigit_within k s = true -> parse_digits acc s = None.
Proof.
  induction k as [|k IH]; intros s acc H; [destruct s; discriminate H|].
  destruct s as [|c s]; [discriminate H|].
  cbn in H |- *. destruct (digit_of c); [apply (IH s _ H) | reflexivity].
Qed.

(** Twenty digits are needed to overflow: a byte that is not a digit among
    the first twenty is reached, and is a syntax error. *)
Lemma has_nondigit_ParseUint (k : nat) :
  forall (s : string) (n : Z),
    (k <= 20)%nat ->
    0 <= n < 10 ^ (20 - Z.of_nat k) ->
    has_nondigit_within k s = true ->
    ParseUint_digits n s = (0, Some ErrSyntax).
Proof.
  induction k as [|k IH]; intros s n Hk Hn H; [destruct s; discriminate H|].
  destruct s as [|c s]; [discriminate H|].
  cbn [has_nondigit_within] in H. cbn [ParseUint_digits].
  destruct (digit_of c) as [d|] eqn:Hd; [|reflexivity].
  destruct k as [|k]; [destruct s; discriminate H|].
  apply digit_of_range in Hd.
  set (e := 20 - Z.of_nat (S (S k))) in *.
  assert (He : 0 <= e <= 18) by (unfold e; lia).
  assert (Hpow : 10 ^ e <= 10 ^ 18) by (apply Z.pow_le_mono_r; lia).
  assert (H18 : 10 ^ 18 = 1000000000000000000) by reflexivity.
  rewrite (Z.geb_leb n), cutoff10_value.
  destruct (Z.leb_spec 1844674407370955162 n); [lia|].
  cbv zeta. rewrite (Z.gtb_ltb (n * 10 + d)), maxUint64_value.
  destruct (Z.ltb_spec 18446744073709551615 (n * 10 + d)); [lia|].
  apply IH; [lia | | exact H].
  replace (20 - Z.of_nat (S k)) with (Z.succ e) by (unfold e; lia).
  rewrite Z.pow_succ_r by lia. lia.
Qed.

(** A string that is empty, or a sign alone, or has a byte that is not a
    digit among the first twenty after the sign, is a syntax error. *)
Lemma Atoi_syntax_error (s : string) :
  snd (split_sign s) = "" \/ has_nondigit_within 20 (snd (split_sign s)) = true ->
  strconv_Atoi s = (0, Some ErrSyntax).
Proof.
  intros H. unfold strconv_Atoi. cbv zeta.
  destruct ((0 <? String.length s)%nat && (String.length s <? 19)%nat).
  - destruct (split_sign s) as [neg s1]. cbn [snd] in H.
    destruct s1 as [|c1 s1]; [reflexivity|].
    destruct H as [H|H]; [discriminate H|].
    rewrite (has_nondigit_parse_digits 20 _ 0 H). reflexivity.
  - unfold strconv_ParseInt. destruct s as [|c s]; [reflexivity|].
    destruct (split_sign (String c s)) as [neg s0]. cbn [snd] in H.
    unfold strconv_ParseUint. destruct s0 as [|c0 s0]; [reflexivity|].
    destruct H as [H|H]; [discriminate H|].
    rewrite (has_nondigit_ParseUint 20 _ 0 (le_n 20) ltac:(simpl; lia) H).
    reflexivity.
Qed.

(** The range error comes first: once the digits have overflowed, the bytes
    after them are not read. *)
Example Atoi_range_error_comes_first :
  strconv_Atoi "99999999999999999999x" = (9223372036854775807, Some ErrRange)
  /\ strconv_Atoi "9999999999999999999x" = (0, Some ErrSyntax)
  /\ strconv_Atoi "-9223372036854775809" = (-9223372036854775808, Some ErrRange).
Proof. repeat split. Qed.

(** C9 (as stated, refuted): the timeout string [9223372036854775808] is not
    a valid [int]; [strconv.Atoi] reports an error, which is discarded, and
    the job definition's Timeout is 4294967295, not 0. *)
Lemma C9_out_of_range_timeout_is_not_zero :
  config.Timeout (with_timeout "9223372036854775808") = "9223372036854775808"
  /\ strconv_Atoi "9223372036854775808" = (9223372036854775807, Some ErrRange)
  /\ snd (generateCheckConfig (with_timeout "9223372036854775808")) = None
  /\ types.Timeout (fst (generateCheckConfig (with_timeout "9223372036854775808")))
     = 4294967295
  /\ types.Timeout (fst (generateCheckConfig (with_timeout "9223372036854775808")))
     <> 0.
Proof. repeat split. discriminate. Qed.

(** C9 (amended): [generateCheckConfig] always returns a nil error, and the
    error of [strconv.Atoi], which is a syntax error or a range error, is
    always discarded.  When the timeout string is empty, is a sign alone, or
    has a byte that is not a decimal digit among the first twenty after the
    sign, and whenever [Atoi] reports a syntax error, the Timeout is 0.
    When [Atoi] reports a range error, the Timeout is 4294967295 for a
    string without a minus sign and 0 for one with it. *)
Theorem C9_generateCheckConfig_discards_Atoi_error (cfg : config.Config) :
  let timeout := config.Timeout cfg in
  let job := fst (generateCheckConfig cfg) in
  snd (generateCheckConfig cfg) = None
  /\ (timeout = "" \/ snd (split_sign timeout) = ""
      \/ has_nondigit_within 20 (snd (split_sign timeout)) = true ->
      strconv_Atoi timeout = (0, Some ErrSyntax))
  /\ (snd (strconv_Atoi timeout) = Some ErrSyntax -> types.Timeout job = 0)
  /\ (snd (strconv_Atoi timeout) = Some ErrRange ->
      (fst (split_sign timeout) = false /\ types.Timeout job = 4294967295)
      \/ (fst (split_sign timeout) = true /\ types.Timeout job = 0))
  /\ (forall e : error,
         snd (strconv_Atoi timeout) = Some e -> e = ErrSyntax \/ e = ErrRange).
Proof.
  cbv zeta. split; [apply generateCheckConfig_nil|].
  split.
  { intros H. apply Atoi_syntax_error.
    destruct H as [H|H]; [left; rewrite H; reflexivity | exact H]. }
  rewrite generateCheckConfig_Timeout.
  destruct (Atoi_cases (config.Timeout cfg)) as [H|[[Hs H]|[[Hs H]|[v H]]]];
    rewrite H; simpl snd; simpl fst.
  - split; [reflexivity|]. split; [discriminate|].
    intros e He. injection He as <-. auto.
  - split; [discriminate|]. split; [intros _; left; split; [exact Hs | reflexivity]|].
    intros e He. injection He as <-. auto.
  - split; [discriminate|]. split; [intros _; right; split; [exact Hs | reflexivity]|].
    intros e He. injection He as <-. auto.
  - split; [discriminate|]. split; discriminate.
Qed.

Lemma C9_generateCheckConfig_discards_Atoi_error_witness :
  strconv_Atoi (config.Timeout (with_timeout "10s")) = (0, Some ErrSyntax)
  /\ types.Timeout (fst (generateCheckConfig (with_timeout "10s"))) = 0
  /\ types.Timeout (fst (generateCheckConfig (with_timeout "9223372036854775808")))
     = 4294967295.
Proof.
  split; [|split].
  - apply (proj1 (proj2 (C9_generateCheckConfig_discards_Atoi_error (with_timeout "10s")))).
    right. right. reflexivity.
  - apply (proj1 (proj2 (proj2
             (C9_generateCheckConfig_discards_Atoi_error (with_timeout "10s"))))).
    reflexivity.
  - destruct (proj1 (proj2 (proj2 (proj2
                (C9_generateCheckConfig_discards_Atoi_error
                   (with_timeout "9223372036854775808")))))
                eq_refl) as [[_ H]|[Hneg _]]; [exact H | discriminate Hneg].
Defined.

(** ** Splitting the subscriptions *)

Lemma strings_Split_not_nil (s : string) (sep : ascii) : strings_Split s sep <> [].
Proof.
  destruct s as [|c s]; simpl; [discriminate|].
  destruct (Ascii.eqb c sep); [discriminate|].
  destruct (strings_Split s sep); discriminate.
Qed.

(** Joining the pieces with the separator gives the input back: nothing is
    dropped, reordered or merged. *)
Lemma strings_Join_Split (s : string) (sep : ascii) :
  strings_Join (strings_Split s sep) sep = s.
Proof.
  induction s as [|c s IH]; [reflexivity|].
  simpl. destruct (Ascii.eqb_spec c sep) as [->|Hne].
  - pose proof (strings_Split_not_nil s sep) as Hnil.
    change (strings_Join (EmptyString :: strings_Split s sep) sep)
      with (match strings_Split s sep with
            | [] => EmptyString
            | _ :: _ => EmptyString +:+ String sep (strings_Join (strings_Split s sep) sep)
            end).
    destruct (strings_Split s sep) as [|p ps]; [contradiction|].
    rewrite IH. reflexivity.
  - pose proof (strings_Split_not_nil s sep) as Hnil.
    destruct (strings_Split s sep) as [|p ps]; [contradiction|].
    simpl in *. destruct ps as [|q ps].
    + rewrite IH. reflexivity.
    + simpl. rewrite <- IH. reflexivity.
Qed.

(** No piece contains the separator. *)
Lemma strings_Split_pieces (s : string) (sep : ascii) :
  Forall (fun piece => contains_byte piece sep = false) (strings_Split s sep).
Proof.
  induction s as [|c s IH]; simpl; [repeat constructor|].
  destruct (Ascii.eqb c sep) eqn:Hc; [constructor; [reflexivity | exact IH]|].
  destruct (strings_Split s sep) as [|p ps]; [repeat constructor; simpl; rewrite Hc; reflexivity|].
  inversion IH; subst. constructor; [simpl; rewrite Hc; assumption | assumption].
Qed.

(** C6: the subscription list in the Invoke body is the comma-split of the
    subscriptions input: its pieces, none containing a comma, joined by
    commas give the input back, so order and duplicates are kept; the only
    request [executeJob] sends carries that list. *)
Theorem C6_subscriptions_are_comma_split
    (env : Env) (cfg : config.Config) (job : types.CheckConfig) (t : list Event) :
  Body (executeRequest cfg job) = JSONJobRequest (jobRequest cfg job)
  /\ Subscriptions (jobRequest cfg job) = strings_Split (config.Subscriptions cfg) comma
  /\ strings_Join (Subscriptions (jobRequest cfg job)) comma = config.Subscriptions cfg
  /\ Forall (fun piece => contains_byte piece comma = false)
            (Subscriptions (jobRequest cfg job))
  /\ (sent (snd (executeJob env cfg job t)) = sent t
      \/ sent (snd (executeJob env cfg job t)) = sent t ++ [executeRequest cfg job])
  /\ strings_Split "web,db,cache" comma = ["web"; "db"; "cache"]
  /\ strings_Split "web,web" comma = ["web"; "web"].
Proof.
  repeat split.
  - apply strings_Join_Split.
  - apply strings_Split_pieces.
  - apply executeJob_sent.
Qed.

(** ** The dispatcher *)

(** [executePlaybook] in closed form, by the outcome of its two phases. *)
Lemma executePlaybook_eq (env : Env) (cfg : config.Config) (t : list Event) :
  executePlaybook env cfg t =
  let job := fst (generateCheckConfig cfg) in
  match createJob env cfg job (t ++ [Log (registering_message cfg job)]) with
  | (Done (Some e), t1) => (Done (CheckStateCritical, Some e), t1)
  | (Done None, t1) =>
      match executeJob env cfg job t1 with
      | (Done (Some _), t2) => (Done (CheckStateCritical, None), t2)
      | (Done None, t2) => (Done (CheckStateOK, None), t2)
      | (OsExit code, t2) => (OsExit code, t2)
      end
  | (OsExit code, t1) => (OsExit code, t1)
  end.
Proof.
  unfold executePlaybook, executePlaybookWith.
  pose proof (generateCheckConfig_nil cfg) as Hnil.
  destruct (generateCheckConfig cfg) as [job err]. simpl in Hnil. subst err.
  cbv zeta. unfold bind, log_Printf, emit, registering_message. simpl fst.
  destruct (createJob env cfg job _) as [[[e|]|code] t1]; try reflexivity.
  destruct (executeJob env cfg job t1) as [[[e|]|code] t2]; reflexivity.
Qed.

Section Dispatch.
Variable env : Env.
Variable cfg : config.Config.

Let job := fst (generateCheckConfig cfg).
Let create := createRequest cfg job.
Let execute := executeRequest cfg job.

(** A run sends nothing, or the create request, or the create request and
    then the execute request. *)
Lemma executePlaybook_sent (t : list Event) :
  sent (snd (executePlaybook env cfg t)) = sent t
  \/ sent (snd (executePlaybook env cfg t)) = sent t ++ [create]
  \/ sent (snd (executePlaybook env cfg t)) = sent t ++ [create; execute].
Proof.
  rewrite executePlaybook_eq. cbv zeta. fold job.
  set (t0 := t ++ [Log (registering_message cfg job)]).
  assert (Ht0 : sent t0 = sent t) by apply sent_log.
  pose proof (createJob_outcome env cfg job t0) as Hc.
  destruct (createJob env cfg job t0) as [[[e|]|code] t1]; simpl in Hc;
    rewrite Ht0 in Hc.
  - destruct Hc as [[Hr _]|[[Hr|Hr] _]]; discriminate Hr.
  - destruct Hc as [[Hr _]|[_ Hc]]; [discriminate Hr|].
    pose proof (executeJob_sent env cfg job t1) as He.
    destruct (executeJob env cfg job t1) as [r t2]; simpl in He.
    assert (Hgoal : sent t2 = sent t ++ [create]
                    \/ sent t2 = sent t ++ [create; execute]).
    { destruct He as [He|He]; rewrite He, Hc; rewrite <- ?app_assoc; auto. }
    destruct r as [[e|]|code]; simpl; tauto.
  - simpl. destruct Hc as [[_ Hc]|[_ Hc]]; rewrite Hc; auto.
Qed.

(** [executePlaybook] returns OK or the process exits with status 1; in
    particular the Critical state is never returned. *)
Lemma executePlaybook_result (t : list Event) :
  fst (executePlaybook env cfg t) = Done (CheckStateOK, None)
  \/ fst (executePlaybook env cfg t) = OsExit 1.
Proof.
  rewrite executePlaybook_eq. cbv zeta. fold job.
  set (t0 := t ++ [Log (registering_message cfg job)]).
  pose proof (createJob_result env cfg job t0) as Hr.
  destruct (createJob env cfg job t0) as [[[e|]|code] t1]; simpl in Hr;
    try (destruct Hr; discriminate).
  - pose proof (executeJob_result env cfg job t1) as Hr2.
    destruct (executeJob env cfg job t1) as [[[e|]|code] t2]; simpl in *;
      try (destruct Hr2; discriminate); auto.
    destruct Hr2 as [Hr2|Hr2]; [discriminate|]. right.
    injection Hr2 as ->. reflexivity.
  - destruct Hr as [Hr|Hr]; [discriminate|]. right.
    injection Hr as ->. reflexivity.
Qed.

Section Answers.
Variable t : list Event.
Hypothesis Hurl1 : url_Parse env (createURL cfg) = None.
Hypothesis Hca : ca_file_ok env cfg = true.

Variable r1 : Response.
Hypothesis Hdo1 : http_Do env (sent t) (client_of env cfg) create = inl r1.

Let Hdo1' :
  http_Do env (sent (t ++ [Log (registering_message cfg job)]))
    (client_of env cfg) (createRequest cfg job) = inl r1.
Proof. rewrite sent_log. exact Hdo1. Qed.

(** Phase 1 answered with "not found": the process exits with status 1
    and Phase 2 is not attempted. *)
Lemma executePlaybook_create_not_found :
  StatusCode r1 = 404 ->
  fst (executePlaybook env cfg t) = OsExit 1
  /\ sent (snd (executePlaybook env cfg t)) = sent t ++ [create]
  /\ last (snd (executePlaybook env cfg t))
     = Some (Log (not_found_message env 404 (createURL cfg))).
Proof.
  intros Hcode. rewrite executePlaybook_eq. cbv zeta. fold job.
  rewrite (createJob_not_found env cfg job _ r1 Hurl1 Hca Hdo1' Hcode).
  cbv zeta. simpl fst. simpl snd. rewrite Hcode.
  rewrite last_snoc, sent_log, sent_do, sent_app, sent_pool_log, app_nil_r, sent_log.
  auto.
Qed.


Hypothesis Hproceed : StatusCode r1 = 201 \/ StatusCode r1 = 409.

(** Phase 1 answered with "created" or "conflict": [createJob] returns
    nil and the execute request is the next thing sent. *)
Lemma createJob_proceeds :
  exists t1,
    createJob env cfg job (t ++ [Log (registering_message cfg job)]) = (Done None, t1)
    /\ sent t1 = sent t ++ [create].
Proof.
  destruct Hproceed as [Hcode|Hcode]; eexists; split;
    first [ apply (createJob_created env cfg job _ r1 Hurl1 Hca Hdo1' Hcode)
          | apply (createJob_conflict env cfg job _ r1 Hurl1 Hca Hdo1' Hcode)
          | idtac ];
    cbv zeta;
    rewrite sent_log, sent_do, sent_app, sent_pool_log, app_nil_r, sent_log;
    reflexivity.
Qed.

Hypothesis Hurl2 : url_Parse env (executeURL cfg) = None.

(** ... so Phase 2 is attempted, with the execute request, whatever the
    answer to it will be. *)
Lemma executePlaybook_invoked :
  sent (snd (executePlaybook env cfg t)) = sent t ++ [create; execute].
Proof.
  destruct createJob_proceeds as (t1 & Hc & Hs).
  rewrite executePlaybook_eq. cbv zeta. fold job. rewrite Hc.
  assert (Hsent : sent (snd (executeJob env cfg job t1)) = sent t1 ++ [execute]).
  { destruct (executeJob_outcome env cfg job t1) as [[_ Hno]|[_ Hyes]];
      [|exact Hyes].
    exfalso. revert Hno.
    unfold executeJob, http_NewRequest. rewrite Hurl2. unfold bind.
    rewrite (initHTTPClient_ok _ _ _ Hca). unfold httpClient_Do. cbv beta iota.
    assert (Hpre : forall req,
               sent ((t1 ++ pool_log env) ++ [Do (client_of env cfg) req])
               <> sent t1).
    { intros req H. rewrite sent_do, sent_app, sent_pool_log, app_nil_r in H.
      apply (f_equal (@length Request)) in H. rewrite length_app in H.
      simpl in H. lia. }
    match goal with
    | |- context [match ?d with inl _ => _ | inr _ => _ end] =>
        destruct d as [resp|e]
    end;
      repeat match goal with
             | |- context [if ?b then _ else _] => destruct b
             end;
      try destruct (ReadAll resp);
      unfold log_Fatalf, log_Printf, fmt_Printf, emit, ret; simpl;
      rewrite ?sent_log, ?sent_stdout; apply Hpre. }
  destruct (executeJob env cfg job t1) as [[[e|]|code] t2]; simpl in *;
    rewrite Hsent, Hs, <- app_assoc; reflexivity.
Qed.

Variable r2 : Response.
Hypothesis Hdo2 :
  http_Do env (sent t ++ [create]) (client_of env cfg) execute = inl r2.

(** Phase 2 answered with "accepted": the run is OK. *)
Lemma executePlaybook_ok :
  StatusCode r2 = 202 ->
  fst (executePlaybook env cfg t) = Done (CheckStateOK, None).
Proof.
  intros Hcode. destruct createJob_proceeds as (t1 & Hc & Hs).
  rewrite executePlaybook_eq. cbv zeta. fold job. rewrite Hc.
  rewrite <- Hs in Hdo2.
  rewrite (executeJob_accepted env cfg job t1 r2 Hurl2 Hca Hdo2 Hcode).
  reflexivity.
Qed.

(** Phase 2 answered with "not found", or another status of 300 or
    more: the process exits with status 1. *)
Lemma executePlaybook_execute_rejected :
  300 <= StatusCode r2 ->
  fst (executePlaybook env cfg t) = OsExit 1
  /\ last (snd (executePlaybook env cfg t))
     = Some (Log (if (StatusCode r2 =? 404)%Z
                  then not_found_message env (StatusCode r2) (executeURL cfg)
                  else rejected_message env (StatusCode r2))).
Proof.
  intros Hge. destruct createJob_proceeds as (t1 & Hc & Hs).
  rewrite executePlaybook_eq. cbv zeta. fold job. rewrite Hc.
  rewrite <- Hs in Hdo2.
  destruct (Z.eqb_spec (StatusCode r2) 404) as [H404|H404].
  - rewrite (executeJob_not_found env cfg job t1 r2 Hurl2 Hca Hdo2 H404).
    cbv zeta. simpl fst. simpl snd. rewrite last_snoc. auto.
  - rewrite (executeJob_rejected env cfg job t1 r2 Hurl2 Hca Hdo2 Hge H404).
    cbv zeta. simpl fst. simpl snd. rewrite last_snoc. auto.
Qed.
End Answers.
End Dispatch.

(** ** Claims about the dispatcher *)

(** C2: when Create is answered with the conflict status 409, the run is not
    aborted: [createJob] returns nil, the execute request, which carries the
    same job identifier, is sent next, and if it is answered with 202 the
    outcome is OK.  Hence two runs in a row with the same job identifier,
    the first answered 201 then 202 and the second 409 then 202, are both
    OK. *)
Theorem C2_conflict_is_soft_success (env : Env) (cfg : config.Config) :
  let job := fst (generateCheckConfig cfg) in
  let create := createRequest cfg job in
  let execute := executeRequest cfg job in
  let client := client_of env cfg in
  url_Parse env (createURL cfg) = None ->
  url_Parse env (executeURL cfg) = None ->
  ca_file_ok env cfg = true ->
  (forall (t : list Event) (r1 : Response),
      http_Do env (sent t) client create = inl r1 ->
      StatusCode r1 = 409 ->
      (exists t1,
          createJob env cfg job (t ++ [Log (registering_message cfg job)])
          = (Done None, t1))
      /\ sent (snd (executePlaybook env cfg t)) = sent t ++ [create; execute]
      /\ Check (jobRequest cfg job) = config.JobID cfg
      /\ URL execute = executeURL cfg
      /\ (forall r2 : Response,
             http_Do env (sent t ++ [create]) client execute = inl r2 ->
             StatusCode r2 = 202 ->
             fst (executePlaybook env cfg t) = Done (CheckStateOK, None)))
  /\ (forall (t : list Event) (ra rb rc rd : Response),
         http_Do env (sent t) client create = inl ra ->
         StatusCode ra = 201 ->
         http_Do env (sent t ++ [create]) client execute = inl rb ->
         StatusCode rb = 202 ->
         http_Do env (sent t ++ [create; execute]) client create = inl rc ->
         StatusCode rc = 409 ->
         http_Do env (sent t ++ [create; execute; create]) client execute = inl rd ->
         StatusCode rd = 202 ->
         fst (twice (executePlaybook env cfg) t)
         = (Done (CheckStateOK, None), Done (CheckStateOK, None))).
Proof.
  intros job create execute client Hurl1 Hurl2 Hca. split.
  - intros t r1 Hdo1 Hcode.
    assert (Hproceed : StatusCode r1 = 201 \/ StatusCode r1 = 409) by (right; exact Hcode).
    split; [|split; [|split; [|split]]].
    + destruct (createJob_proceeds env cfg t Hurl1 Hca r1 Hdo1 Hproceed) as (t1 & Hc & _).
      exists t1. exact Hc.
    + exact (executePlaybook_invoked env cfg t Hurl1 Hca r1 Hdo1 Hproceed Hurl2).
    + subst job. unfold jobRequest. rewrite generateCheckConfig_metadata. reflexivity.
    + reflexivity.
    + intros r2 Hdo2 Hcode2.
      exact (executePlaybook_ok env cfg t Hurl1 Hca r1 Hdo1 Hproceed Hurl2 r2 Hdo2 Hcode2).
  - intros t ra rb rc rd Hda Hca' Hdb Hcb Hdc Hcc Hdd Hcd.
    pose proof (executePlaybook_ok env cfg t Hurl1 Hca ra Hda (or_introl Hca')
                  Hurl2 rb Hdb Hcb) as Hfirst.
    pose proof (executePlaybook_invoked env cfg t Hurl1 Hca ra Hda (or_introl Hca')
                  Hurl2) as Hsent.
    unfold twice.
    destruct (executePlaybook env cfg t) as [res1 t1]. simpl in Hfirst, Hsent.
    fold job in Hsent. fold create in Hsent. fold execute in Hsent.
    assert (Hdc' : http_Do env (sent t1) client create = inl rc)
      by (rewrite Hsent; exact Hdc).
    assert (Hdd' : http_Do env (sent t1 ++ [create]) client execute = inl rd)
      by (rewrite Hsent, <- app_assoc; exact Hdd).
    pose proof (executePlaybook_ok env cfg t1 Hurl1 Hca rc Hdc' (or_intror Hcc)
                  Hurl2 rd Hdd' Hcd) as Hsecond.
    destruct (executePlaybook env cfg t1) as [res2 t2]. simpl in Hsecond |- *.
    rewrite Hfirst, Hsecond. reflexivity.
Qed.

Lemma C2_conflict_is_soft_success_witness :
  fst (executePlaybook (scripted_env [status 409; status 202]) sample_config [])
  = Done (CheckStateOK, None)
  /\ fst (twice (executePlaybook platform_env sample_config) [])
     = (Done (CheckStateOK, None), Done (CheckStateOK, None)).
Proof.
  split.
  - refine (proj2 (proj2 (proj2 (proj2
      (proj1 (C2_conflict_is_soft_success (scripted_env [status 409; status 202])
                sample_config eq_refl eq_refl eq_refl)
         [] {| StatusCode := 409; ReadAll := inl "" |} eq_refl eq_refl))))
      {| StatusCode := 202; ReadAll := inl "" |} eq_refl eq_refl).
  - refine (proj2 (C2_conflict_is_soft_success platform_env sample_config
                     eq_refl eq_refl eq_refl)
              []
              {| StatusCode := 201; ReadAll := inl "" |}
              {| StatusCode := 202; ReadAll := inl "" |}
              {| StatusCode := 409; ReadAll := inl "" |}
              {| StatusCode := 202; ReadAll := inl "" |}
              eq_refl eq_refl eq_refl eq_refl eq_refl eq_refl eq_refl eq_refl).
Defined.

(** C4: the job identifier in the Invoke request's URL path and in its body's
    check field is the name in the metadata of the Create payload, namely
    [config.JobID]; and a run sends no other requests than these two, in this
    order. *)
Theorem C4_job_identifier_is_shared (env : Env) (cfg : config.Config) (t : list Event) :
  let job := fst (generateCheckConfig cfg) in
  let name := types.Name (types.metadata job) in
  name = config.JobID cfg
  /\ Body (createRequest cfg job) = JSONCheckConfig job
  /\ URL (executeRequest cfg job)
     = config.SensuAPIUrl cfg +:+ "/api/core/v2/namespaces/" +:+ config.Namespace cfg
       +:+ "/checks/" +:+ name +:+ "/execute"
  /\ (exists subscriptions,
         Body (executeRequest cfg job)
         = JSONJobRequest {| Check := name; Subscriptions := subscriptions |})
  /\ (sent (snd (executePlaybook env cfg t)) = sent t
      \/ sent (snd (executePlaybook env cfg t)) = sent t ++ [createRequest cfg job]
      \/ sent (snd (executePlaybook env cfg t))
         = sent t ++ [createRequest cfg job; executeRequest cfg job]).
Proof.
  cbv zeta. rewrite generateCheckConfig_metadata.
  split; [reflexivity|]. split; [reflexivity|]. split; [reflexivity|].
  split.
  - eexists. simpl. unfold jobRequest. rewrite generateCheckConfig_metadata. reflexivity.
  - apply executePlaybook_sent.
Qed.

(** Both requests are indeed sent on an ordinary run. *)
Example sample_run_sends_both :
  sent (snd (executePlaybook platform_env sample_config []))
  = [createRequest sample_config (fst (generateCheckConfig sample_config));
     executeRequest sample_config (fst (generateCheckConfig sample_config))].
Proof. vm_compute. reflexivity. Qed.

(** C5: when Create is answered with "not found" (404), the process is ended
    by [log.Fatalf] with exit status 1: Invoke is never attempted, the last
    log line carries the status and its text, and [executePlaybook] does not
    return the Critical state (it never does, on any run). *)
Theorem C5_not_found_exits_with_status_1
    (env : Env) (cfg : config.Config) (t : list Event) (r : Response) :
  let job := fst (generateCheckConfig cfg) in
  url_Parse env (createURL cfg) = None ->
  ca_file_ok env cfg = true ->
  http_Do env (sent t) (client_of env cfg) (createRequest cfg job) = inl r ->
  StatusCode r = 404 ->
  fst (executePlaybook env cfg t) = OsExit 1
  /\ sent (snd (executePlaybook env cfg t)) = sent t ++ [createRequest cfg job]
  /\ last (snd (executePlaybook env cfg t))
     = Some (Log (not_found_message env 404 (createURL cfg)))
  /\ (forall e, fst (executePlaybook env cfg t) <> Done (CheckStateCritical, e)).
Proof.
  intros job Hurl Hca Hdo Hcode.
  destruct (executePlaybook_create_not_found env cfg t Hurl Hca r Hdo Hcode)
    as (Hexit & Hsent & Hlast).
  repeat split; try assumption.
  intros e. rewrite Hexit. discriminate.
Qed.

Lemma C5_not_found_exits_with_status_1_witness :
  fst (executePlaybook (scripted_env [status 404]) sample_config []) = OsExit 1
  /\ sent (snd (executePlaybook (scripted_env [status 404]) sample_config []))
     = sent [] ++ [createRequest sample_config (fst (generateCheckConfig sample_config))]
  /\ last (snd (executePlaybook (scripted_env [status 404]) sample_config []))
     = Some (Log (not_found_message (scripted_env [status 404]) 404
                    (createURL sample_config)))
  /\ (forall e, fst (executePlaybook (scripted_env [status 404]) sample_config [])
                <> Done (CheckStateCritical, e)).
Proof.
  exact (C5_not_found_exits_with_status_1 (scripted_env [status 404]) sample_config []
           {| StatusCode := 404; ReadAll := inl "" |} eq_refl eq_refl eq_refl eq_refl).
Defined.

(** ** Trust store *)

Lemma base_pool_unavailable (env : Env) :
  snd (x509_SystemCertPool env) <> None \/ fst (x509_SystemCertPool env) = None ->
  base_pool env = x509_NewCertPool.
Proof.
  unfold base_pool. destruct (x509_SystemCertPool env) as [[pool|] [e|]]; simpl;
    intros [H|H]; first [reflexivity | contradiction | discriminate].
Qed.

(** With an unreadable CA file, Phase 1 ends the process before it reaches
    [httpClient.Do]. *)
Lemma createJob_unreadable_ca (env : Env) (cfg : config.Config)
    (job : types.CheckConfig) (t : list Event) (e : error) :
  config.SensuTrustedCaFile cfg <> "" ->
  ioutil_ReadFile env (config.SensuTrustedCaFile cfg) = inr e ->
  fst (createJob env cfg job t) = OsExit 1
  /\ sent (snd (createJob env cfg job t)) = sent t.
Proof.
  intros Hpath Hread. unfold createJob, http_NewRequest.
  destruct (url_Parse env (createURL cfg)) as [e'|].
  - unfold log_Fatalf. simpl. split; [reflexivity | apply sent_log].
  - unfold bind. rewrite (initHTTPClient_unreadable env cfg t e Hpath Hread).
    simpl. rewrite sent_log, sent_app, sent_pool_log, app_nil_r. auto.
Qed.

(** C8: when a trusted-CA file path is given and the file cannot be read,
    client construction ends the process through [log.Fatalf] with a message
    that carries the path and the I/O error, and the run ends without any
    request having been sent.  When the system cert pool is unavailable (an
    error, or no pool), construction does not fail: the trust store starts
    empty, and holds exactly what the CA file, if any, adds. *)
Theorem C8_trust_store_construction (env : Env) (cfg : config.Config) (t : list Event) :
  let path := config.SensuTrustedCaFile cfg in
  (forall e : error,
      path <> "" ->
      ioutil_ReadFile env path = inr e ->
      initHTTPClient env cfg t
      = (OsExit 1, (t ++ pool_log env) ++ [Log (ca_file_message path e)])
      /\ sent (snd (initHTTPClient env cfg t)) = sent t
      /\ fst (executePlaybook env cfg t) = OsExit 1
      /\ sent (snd (executePlaybook env cfg t)) = sent t)
  /\ (snd (x509_SystemCertPool env) <> None \/ fst (x509_SystemCertPool env) = None ->
      (path = "" ->
       fst (initHTTPClient env cfg t) = Done {| RootCAs := x509_NewCertPool |})
      /\ (forall certs : string,
             path <> "" ->
             ioutil_ReadFile env path = inl certs ->
             fst (initHTTPClient env cfg t)
             = Done {| RootCAs := x509_AppendCertsFromPEM env x509_NewCertPool certs |})).
Proof.
  cbv zeta. split.
  - intros e Hpath Hread.
    split; [apply (initHTTPClient_unreadable env cfg t e Hpath Hread)|].
    split; [apply initHTTPClient_sent|].
    rewrite executePlaybook_eq. cbv zeta.
    set (job := fst (generateCheckConfig cfg)).
    destruct (createJob_unreadable_ca env cfg job
                (t ++ [Log (registering_message cfg job)]) e Hpath Hread)
      as [Hexit Hsent].
    destruct (createJob env cfg job _) as [[[e'|]|code] t1]; simpl in Hexit, Hsent;
      try discriminate Hexit.
    injection Hexit as ->. simpl. rewrite Hsent, sent_log. auto.
  - intros Hpool. pose proof (base_pool_unavailable env Hpool) as Hbase.
    split.
    + intros Hpath. rewrite initHTTPClient_eq. unfold client_of.
      rewrite Hpath, Hbase. reflexivity.
    + intros certs Hpath Hread. rewrite initHTTPClient_eq. unfold client_of.
      rewrite Hread, Hbase.
      destruct (String.eqb_spec (config.SensuTrustedCaFile cfg) ""); [contradiction|].
      reflexivity.
Qed.

Lemma C8_trust_store_construction_witness :
  (fst (executePlaybook platform_env (with_ca_file "/etc/sensu/missing.pem") []) = OsExit 1
   /\ sent (snd (executePlaybook platform_env (with_ca_file "/etc/sensu/missing.pem") []))
      = sent [])
  /\ fst (initHTTPClient no_system_pool_env sample_config [])
     = Done {| RootCAs := x509_NewCertPool |}
  /\ fst (initHTTPClient no_system_pool_env (with_ca_file "/etc/sensu/ca.pem") [])
     = Done {| RootCAs := ["-----BEGIN CERTIFICATE-----"] |}.
Proof.
  split; [|split].
  - refine (proj2 (proj2 (proj1
      (C8_trust_store_construction platform_env (with_ca_file "/etc/sensu/missing.pem") [])
      "open /etc/sensu/missing.pem: no such file or directory" _ eq_refl))).
    discriminate.
  - refine (proj1 (proj2
      (C8_trust_store_construction no_system_pool_env sample_config []) _) eq_refl).
    left. discriminate.
  - refine (proj2 (proj2
      (C8_trust_store_construction no_system_pool_env (with_ca_file "/etc/sensu/ca.pem") [])
      _) "-----BEGIN CERTIFICATE-----" _ eq_refl).
    + left. discriminate.
    + discriminate.
Defined.

(** ** Error propagation in [executePlaybook] *)



(** * Further properties of [main.go] *)

(** ** Which configurations pass the pre-flight check *)

(** X1: [checkArgs] accepts a configuration exactly when the API URL, the
    namespace, the command and the subscriptions are all non-empty; it
    reports an error exactly when it does not return OK. *)
Theorem X1_checkArgs_accepts_iff (cfg : config.Config) :
  (checkArgs cfg = (CheckStateOK, None) <->
   config.SensuAPIUrl cfg <> "" /\ config.Namespace cfg <> ""
   /\ config.Command cfg <> "" /\ config.Subscriptions cfg <> "")
  /\ (snd (checkArgs cfg) = None <-> fst (checkArgs cfg) = CheckStateOK).
Proof.
  unfold checkArgs.
  destruct (is_empty (config.SensuAPIUrl cfg)) eqn:Hu;
    [apply is_empty_true in Hu | apply is_empty_false in Hu];
    (destruct (is_empty (config.Namespace cfg)) eqn:Hn;
     [apply is_empty_true in Hn | apply is_empty_false in Hn]);
    (destruct (is_empty (config.Command cfg)) eqn:Hc;
     [apply is_empty_true in Hc | apply is_empty_false in Hc]);
    (destruct (is_empty (config.Subscriptions cfg)) eqn:Hs;
     [apply is_empty_true in Hs | apply is_empty_false in Hs]);
    simpl; unfold CheckStateOK, CheckStateWarning, CheckStateCritical;
    (split; split); intros H;
    first [ reflexivity | discriminate H | tauto
          | injection H; intros; discriminate ].
Qed.

Lemma X1_checkArgs_accepts_iff_witness : checkArgs sample_config = (CheckStateOK, None).
Proof.
  apply (proj2 (proj1 (X1_checkArgs_accepts_iff sample_config))).
  repeat split; discriminate.
Defined.

Lemma checkArgs_valid (cfg : config.Config) :
  config.SensuAPIUrl cfg <> "" -> config.Namespace cfg <> "" ->
  config.Command cfg <> "" -> config.Subscriptions cfg <> "" ->
  checkArgs cfg = (CheckStateOK, None).
Proof.
  intros Hu Hn Hc Hs. unfold checkArgs.
  apply is_empty_false in Hu, Hn, Hc, Hs. rewrite Hu, Hn, Hc, Hs. reflexivity.
Qed.

(** X2: for a configuration that passes the pre-flight check, the run is the
    dispatch itself: [main] ends as [executePlaybook] does, with the same
    result and the same trace. *)
Theorem X2_valid_run_is_dispatch (env : Env) (cfg : config.Config) (t : list Event) :
  config.SensuAPIUrl cfg <> "" -> config.Namespace cfg <> "" ->
  config.Command cfg <> "" -> config.Subscriptions cfg <> "" ->
  main env cfg t = executePlaybook env cfg t.
Proof.
  intros Hu Hn Hc Hs. unfold main, goCheckWorkflow.
  rewrite (checkArgs_valid cfg Hu Hn Hc Hs). unfold bind.
  pose proof (executePlaybook_result env cfg t) as Hr.
  destruct (executePlaybook env cfg t) as [[[state [e|]]|code] t']; simpl in Hr;
    try reflexivity.
  destruct Hr as [Hr|Hr]; discriminate Hr.
Qed.

Lemma X2_valid_run_is_dispatch_witness :
  main platform_env sample_config [] = executePlaybook platform_env sample_config [].
Proof.
  apply (X2_valid_run_is_dispatch platform_env sample_config []); discriminate.
Defined.

(** ** How each phase classifies the answer *)

Lemma create_succeeds_dec (r : Response) : create_succeeds r \/ ~ create_succeeds r.
Proof.
  unfold create_succeeds.
  destruct (Z.eq_dec (StatusCode r) 409) as [|H409]; [left; auto|].
  destruct (Z_lt_dec (StatusCode r) 300) as [Hlt|Hge]; [|right; tauto].
  destruct (Z.eq_dec (StatusCode r) 201) as [|H201]; [left; auto|].
  destruct (ReadAll r) as [b|e] eqn:Hbody; [left; eauto|].
  right. intros [H|[_ [H|[b H]]]]; [tauto | tauto | discriminate H].
Qed.

Lemma execute_succeeds_dec (r : Response) : execute_succeeds r \/ ~ execute_succeeds r.
Proof.
  unfold execute_succeeds.
  destruct (Z_lt_dec (StatusCode r) 300) as [Hlt|Hge]; [|right; tauto].
  destruct (Z.eq_dec (StatusCode r) 202) as [|H202]; [left; auto|].
  destruct (ReadAll r) as [b|e] eqn:Hbody; [left; eauto|].
  right. intros [_ [H|[b H]]]; [tauto | discriminate H].
Qed.

Lemma ca_file_not_ok (env : Env) (cfg : config.Config) :
  ca_file_ok env cfg = false ->
  config.SensuTrustedCaFile cfg <> ""
  /\ exists e, ioutil_ReadFile env (config.SensuTrustedCaFile cfg) = inr e.
Proof.
  unfold ca_file_ok.
  destruct (String.eqb_spec (config.SensuTrustedCaFile cfg) ""); [discriminate|].
  destruct (ioutil_ReadFile env (config.SensuTrustedCaFile cfg)) as [certs|e];
    [discriminate|].
  eauto.
Qed.

Section Classification.
Variable env : Env.
Variable cfg : config.Config.
Variable job : types.CheckConfig.
Variable t : list Event.

(** Phase 1, once the request has been answered. *)
Lemma createJob_answered (r : Response) :
  url_Parse env (createURL cfg) = None ->
  ca_file_ok env cfg = true ->
  http_Do env (sent t) (client_of env cfg) (createRequest cfg job) = inl r ->
  (create_succeeds r -> fst (createJob env cfg job t) = Done None)
  /\ (~ create_succeeds r -> fst (createJob env cfg job t) = OsExit 1).
Proof.
  intros Hurl Hca Hdo. unfold create_succeeds. phase_start Hurl Hca Hdo.
  destruct (Z.eqb_spec (StatusCode r) 404) as [H404|H404].
  { split; [intros [H|[H _]]; lia | reflexivity]. }
  destruct (Z.eqb_spec (StatusCode r) 409) as [H409|H409].
  { split; [reflexivity | tauto]. }
  rewrite (Z.geb_leb (StatusCode r) 300).
  destruct (Z.leb_spec 300 (StatusCode r)) as [Hge|Hlt].
  { split; [intros [H|[H _]]; lia | reflexivity]. }
  destruct (Z.eqb_spec (StatusCode r) 201) as [H201|H201].
  { split; [reflexivity | tauto]. }
  destruct (ReadAll r) as [b|e].
  - split; [reflexivity|]. intros H. exfalso. apply H. right. eauto.
  - split; [|reflexivity]. intros [H|[_ [H|[b H]]]]; [lia | lia | discriminate H].
Qed.

(** Phase 2, once the request has been answered. *)
Lemma executeJob_answered (r : Response) :
  url_Parse env (executeURL cfg) = None ->
  ca_file_ok env cfg = true ->
  http_Do env (sent t) (client_of env cfg) (executeRequest cfg job) = inl r ->
  (execute_succeeds r -> fst (executeJob env cfg job t) = Done None)
  /\ (~ execute_succeeds r -> fst (executeJob env cfg job t) = OsExit 1).
Proof.
  intros Hurl Hca Hdo. unfold execute_succeeds. phase_start Hurl Hca Hdo.
  destruct (Z.eqb_spec (StatusCode r) 404) as [H404|H404].
  { split; [intros [H _]; lia | reflexivity]. }
  rewrite (Z.geb_leb (StatusCode r) 300).
  destruct (Z.leb_spec 300 (StatusCode r)) as [Hge|Hlt].
  { split; [intros [H _]; lia | reflexivity]. }
  destruct (Z.eqb_spec (StatusCode r) 202) as [H202|H202].
  { split; [reflexivity | tauto]. }
  destruct (ReadAll r) as [b|e].
  - split; [reflexivity|]. intros H. exfalso. apply H. split; [lia | eauto].
  - split; [|reflexivity]. intros [_ [H|[b H]]]; [lia | discriminate H].
Qed.

(** A transport failure ends the process, after the request was handed to
    the client. *)
Lemma createJob_transport_error (e : error) :
  url_Parse env (createURL cfg) = None ->
  ca_file_ok env cfg = true ->
  http_Do env (sent t) (client_of env cfg) (createRequest cfg job) = inr e ->
  createJob env cfg job t
  = (OsExit 1,
     ((t ++ pool_log env) ++ [Do (client_of env cfg) (createRequest cfg job)])
     ++ [Log (error_message e)]).
Proof. intros Hurl Hca Hdo. phase_start Hurl Hca Hdo. reflexivity. Qed.

Lemma executeJob_transport_error (e : error) :
  url_Parse env (executeURL cfg) = None ->
  ca_file_ok env cfg = true ->
  http_Do env (sent t) (client_of env cfg) (executeRequest cfg job) = inr e ->
  executeJob env cfg job t
  = (OsExit 1,
     ((t ++ pool_log env) ++ [Do (client_of env cfg) (executeRequest cfg job)])
     ++ [Log (error_message e)]).
Proof. intros Hurl Hca Hdo. phase_start Hurl Hca Hdo. reflexivity. Qed.

Lemma executeJob_unreadable_ca (e : error) :
  config.SensuTrustedCaFile cfg <> "" ->
  ioutil_ReadFile env (config.SensuTrustedCaFile cfg) = inr e ->
  fst (executeJob env cfg job t) = OsExit 1
  /\ sent (snd (executeJob env cfg job t)) = sent t.
Proof.
  intros Hpath Hread. unfold executeJob, http_NewRequest.
  destruct (url_Parse env (executeURL cfg)) as [e'|].
  - unfold log_Fatalf. simpl. split; [reflexivity | apply sent_log].
  - unfold bind. rewrite (initHTTPClient_unreadable env cfg t e Hpath Hread).
    simpl. rewrite sent_log, sent_app, sent_pool_log, app_nil_r. auto.
Qed.

(** [createJob] returns nil exactly when the URL is accepted, the client can
    be built, the exchange takes place and the answer is one that succeeds. *)
Lemma createJob_done_iff :
  fst (createJob env cfg job t) = Done None <->
  url_Parse env (createURL cfg) = None
  /\ ca_file_ok env cfg = true
  /\ exists r, http_Do env (sent t) (client_of env cfg) (createRequest cfg job) = inl r
               /\ create_succeeds r.
Proof.
  split.
  - intros Hdone.
    destruct (url_Parse env (createURL cfg)) as [e|] eqn:Hurl.
    { unfold createJob, http_NewRequest in Hdone. rewrite Hurl in Hdone.
      discriminate Hdone. }
    destruct (ca_file_ok env cfg) eqn:Hca.
    2:{ destruct (ca_file_not_ok env cfg Hca) as (Hpath & e & Hread).
        destruct (createJob_unreadable_ca env cfg job t e Hpath Hread) as [Hexit _].
        rewrite Hexit in Hdone. discriminate Hdone. }
    destruct (http_Do env (sent t) (client_of env cfg) (createRequest cfg job))
      as [r|e] eqn:Hdo.
    2:{ rewrite (createJob_transport_error e Hurl Hca Hdo) in Hdone.
        discriminate Hdone. }
    split; [reflexivity|]. split; [reflexivity|]. exists r. split; [reflexivity|].
    destruct (create_succeeds_dec r) as [Hs|Hs]; [exact Hs|].
    rewrite (proj2 (createJob_answered r Hurl Hca Hdo) Hs) in Hdone.
    discriminate Hdone.
  - intros (Hurl & Hca & r & Hdo & Hs).
    exact (proj1 (createJob_answered r Hurl Hca Hdo) Hs).
Qed.

Lemma executeJob_done_iff :
  fst (executeJob env cfg job t) = Done None <->
  url_Parse env (executeURL cfg) = None
  /\ ca_file_ok env cfg = true
  /\ exists r, http_Do env (sent t) (client_of env cfg) (executeRequest cfg job) = inl r
               /\ execute_succeeds r.
Proof.
  split.
  - intros Hdone.
    destruct (url_Parse env (executeURL cfg)) as [e|] eqn:Hurl.
    { unfold executeJob, http_NewRequest in Hdone. rewrite Hurl in Hdone.
      discriminate Hdone. }
    destruct (ca_file_ok env cfg) eqn:Hca.
    2:{ destruct (ca_file_not_ok env cfg Hca) as (Hpath & e & Hread).
        destruct (executeJob_unreadable_ca e Hpath Hread) as [Hexit _].
        rewrite Hexit in Hdone. discriminate Hdone. }
    destruct (http_Do env (sent t) (client_of env cfg) (executeRequest cfg job))
      as [r|e] eqn:Hdo.
    2:{ rewrite (executeJob_transport_error e Hurl Hca Hdo) in Hdone.
        discriminate Hdone. }
    split; [reflexivity|]. split; [reflexivity|]. exists r. split; [reflexivity|].
    destruct (execute_succeeds_dec r) as [Hs|Hs]; [exact Hs|].
    rewrite (proj2 (executeJob_answered r Hurl Hca Hdo) Hs) in Hdone.
    discriminate Hdone.
  - intros (Hurl & Hca & r & Hdo & Hs).
    exact (proj1 (executeJob_answered r Hurl Hca Hdo) Hs).
Qed.
End Classification.

(** X3: once Create has been answered, [createJob] returns nil exactly for
    the conflict status 409 and for a status below 300 that is 201 or whose
    body can be read (the permissive fallback); for every other answer the
    process exits with status 1. *)
Theorem X3_createJob_succeeds_iff
    (env : Env) (cfg : config.Config) (job : types.CheckConfig) (t : list Event)
    (r : Response) :
  url_Parse env (createURL cfg) = None ->
  ca_file_ok env cfg = true ->
  http_Do env (sent t) (client_of env cfg) (createRequest cfg job) = inl r ->
  (fst (createJob env cfg job t) = Done None <->
   StatusCode r = 409
   \/ (StatusCode r < 300 /\ (StatusCode r = 201 \/ exists b, ReadAll r = inl b)))
  /\ (fst (createJob env cfg job t) = Done None
      \/ fst (createJob env cfg job t) = OsExit 1).
Proof.
  intros Hurl Hca Hdo. split; [|apply createJob_result].
  destruct (createJob_answered env cfg job t r Hurl Hca Hdo) as [Hyes Hno].
  fold (create_succeeds r). split; [|exact Hyes].
  intros Hdone. destruct (create_succeeds_dec r) as [Hs|Hs]; [exact Hs|].
  rewrite (Hno Hs) in Hdone. discriminate Hdone.
Qed.

Lemma X3_createJob_succeeds_iff_witness :
  fst (createJob (scripted_env [status 200]) sample_config
         (fst (generateCheckConfig sample_config)) [])
  = Done None.
Proof.
  apply (proj1 (X3_createJob_succeeds_iff (scripted_env [status 200]) sample_config
                  (fst (generateCheckConfig sample_config)) []
                  {| StatusCode := 200; ReadAll := inl "" |} eq_refl eq_refl eq_refl)).
  right. split; [reflexivity|]. right. exists "". reflexivity.
Defined.

(** X4: once Invoke has been answered, [executeJob] returns nil exactly for a
    status below 300 that is 202 or whose body can be read; for every other
    answer, the conflict status 409 included, the process exits with
    status 1. *)
Theorem X4_executeJob_succeeds_iff
    (env : Env) (cfg : config.Config) (job : types.CheckConfig) (t : list Event)
    (r : Response) :
  url_Parse env (executeURL cfg) = None ->
  ca_file_ok env cfg = true ->
  http_Do env (sent t) (client_of env cfg) (executeRequest cfg job) = inl r ->
  (fst (executeJob env cfg job t) = Done None <->
   StatusCode r < 300 /\ (StatusCode r = 202 \/ exists b, ReadAll r = inl b))
  /\ (StatusCode r = 409 -> fst (executeJob env cfg job t) = OsExit 1)
  /\ (fst (executeJob env cfg job t) = Done None
      \/ fst (executeJob env cfg job t) = OsExit 1).
Proof.
  intros Hurl Hca Hdo.
  destruct (executeJob_answered env cfg job t r Hurl Hca Hdo) as [Hyes Hno].
  fold (execute_succeeds r). split; [|split; [|apply executeJob_result]].
  - split; [|exact Hyes].
    intros Hdone. destruct (execute_succeeds_dec r) as [Hs|Hs]; [exact Hs|].
    rewrite (Hno Hs) in Hdone. discriminate Hdone.
  - intros H409. apply Hno. intros [Hlt _]. lia.
Qed.

Lemma X4_executeJob_succeeds_iff_witness :
  fst (executeJob (scripted_env [status 409]) sample_config
         (fst (generateCheckConfig sample_config)) [])
  = OsExit 1.
Proof.
  exact (proj1 (proj2 (X4_executeJob_succeeds_iff (scripted_env [status 409]) sample_config
                         (fst (generateCheckConfig sample_config)) []
                         {| StatusCode := 409; ReadAll := inl "" |}
                         eq_refl eq_refl eq_refl))
           eq_refl).
Defined.

(** ** The dispatcher as a whole *)

Section Outcome.
Variable env : Env.
Variable cfg : config.Config.
Variable t : list Event.

Let job := fst (generateCheckConfig cfg).
Let create := createRequest cfg job.
Let execute := executeRequest cfg job.
Let t0 := t ++ [Log (registering_message cfg job)].

(** The run in three cases: Phase 1 exits; Phase 1 returns and Phase 2
    exits; both return. *)
Lemma executePlaybook_cases :
  (fst (createJob env cfg job t0) = OsExit 1
   /\ executePlaybook env cfg t = (OsExit 1, snd (createJob env cfg job t0)))
  \/ (exists t1,
         createJob env cfg job t0 = (Done None, t1)
         /\ sent t1 = sent t ++ [create]
         /\ ((fst (executeJob env cfg job t1) = OsExit 1
              /\ executePlaybook env cfg t
                 = (OsExit 1, snd (executeJob env cfg job t1)))
             \/ (fst (executeJob env cfg job t1) = Done None
                 /\ executePlaybook env cfg t
                    = (Done (CheckStateOK, None), snd (executeJob env cfg job t1))))).
Proof.
  rewrite executePlaybook_eq. cbv zeta. fold job. fold t0.
  pose proof (createJob_outcome env cfg job t0) as Ho.
  assert (Ht0 : sent t0 = sent t) by apply sent_log.
  destruct (createJob env cfg job t0) as [[[e|]|code] t1]; simpl in Ho |- *.
  - destruct Ho as [[Hr _]|[[Hr|Hr] _]]; discriminate Hr.
  - right. exists t1. split; [reflexivity|].
    destruct Ho as [[Hr _]|[_ Hs]]; [discriminate Hr|].
    rewrite Ht0 in Hs. split; [exact Hs|].
    pose proof (executeJob_result env cfg job t1) as Hr2.
    destruct (executeJob env cfg job t1) as [[[e|]|code] t2]; simpl in Hr2 |- *.
    + destruct Hr2 as [Hr2|Hr2]; discriminate Hr2.
    + right. auto.
    + left. destruct Hr2 as [Hr2|Hr2]; [discriminate Hr2|].
      injection Hr2 as ->. auto.
  - left. destruct Ho as [[Hr _]|[[Hr|Hr] _]]; try discriminate Hr;
      injection Hr as ->; auto.
Qed.
End Outcome.

(** X5: a transport failure of [httpClient.Do] in either phase ends the
    process with status 1; the last log line carries the error, and no
    further request is sent (after a failed Invoke the job stays created). *)
Theorem X5_transport_failure_is_fatal (env : Env) (cfg : config.Config) (t : list Event) :
  let job := fst (generateCheckConfig cfg) in
  let create := createRequest cfg job in
  let execute := executeRequest cfg job in
  url_Parse env (createURL cfg) = None ->
  ca_file_ok env cfg = true ->
  (forall e : error,
      http_Do env (sent t) (client_of env cfg) create = inr e ->
      fst (executePlaybook env cfg t) = OsExit 1
      /\ sent (snd (executePlaybook env cfg t)) = sent t ++ [create]
      /\ last (snd (executePlaybook env cfg t)) = Some (Log (error_message e)))
  /\ (forall (r1 : Response) (e : error),
         http_Do env (sent t) (client_of env cfg) create = inl r1 ->
         StatusCode r1 = 201 \/ StatusCode r1 = 409 ->
         url_Parse env (executeURL cfg) = None ->
         http_Do env (sent t ++ [create]) (client_of env cfg) execute = inr e ->
         fst (executePlaybook env cfg t) = OsExit 1
         /\ sent (snd (executePlaybook env cfg t)) = sent t ++ [create; execute]
         /\ last (snd (executePlaybook env cfg t)) = Some (Log (error_message e))).
Proof.
  intros job create execute Hurl1 Hca. split.
  - intros e Hdo.
    assert (Hdo' : http_Do env (sent (t ++ [Log (registering_message cfg job)]))
                     (client_of env cfg) (createRequest cfg job) = inr e)
      by (rewrite sent_log; exact Hdo).
    rewrite executePlaybook_eq. cbv zeta. fold job.
    rewrite (createJob_transport_error env cfg job _ e Hurl1 Hca Hdo').
    simpl fst. simpl snd.
    rewrite last_snoc, sent_log, sent_do, sent_app, sent_pool_log, app_nil_r, sent_log.
    auto.
  - intros r1 e Hdo1 Hcode Hurl2 Hdo2.
    destruct (createJob_proceeds env cfg t Hurl1 Hca r1 Hdo1 Hcode) as (t1 & Hc & Hs).
    fold job in Hc. fold job create in Hs.
    assert (Hdo2' : http_Do env (sent t1) (client_of env cfg) (executeRequest cfg job)
                    = inr e)
      by (rewrite Hs; exact Hdo2).
    rewrite executePlaybook_eq. cbv zeta. fold job. rewrite Hc.
    rewrite (executeJob_transport_error env cfg job t1 e Hurl2 Hca Hdo2').
    simpl fst. simpl snd.
    rewrite last_snoc, sent_log, sent_do, sent_app, sent_pool_log, app_nil_r, Hs,
      <- app_assoc.
    auto.
Qed.

Lemma X5_transport_failure_is_fatal_witness :
  fst (executePlaybook (scripted_env []) sample_config []) = OsExit 1
  /\ fst (executePlaybook (scripted_env [status 201]) sample_config []) = OsExit 1.
Proof.
  split.
  - exact (proj1 (proj1 (X5_transport_failure_is_fatal (scripted_env []) sample_config []
                           eq_refl eq_refl)
                    "connection refused" eq_refl)).
  - exact (proj1 (proj2 (X5_transport_failure_is_fatal (scripted_env [status 201])
                           sample_config [] eq_refl eq_refl)
                    {| StatusCode := 201; ReadAll := inl "" |} "connection refused"
                    eq_refl (or_introl eq_refl) eq_refl eq_refl)).
Defined.

(** X6: on every run [executePlaybook] either returns the OK state with a nil
    error or the process exits with status 1; it never returns Warning or
    Critical, and never a non-nil error. *)
Theorem X6_executePlaybook_ok_or_exit (env : Env) (cfg : config.Config) (t : list Event) :
  fst (executePlaybook env cfg t) = Done (CheckStateOK, None)
  \/ fst (executePlaybook env cfg t) = OsExit 1.
Proof.
  destruct (executePlaybook_cases env cfg t)
    as [[_ H]|(t1 & _ & _ & [[_ H]|[_ H]])]; rewrite H; auto.
Qed.

(** X7: the run is OK exactly when both URLs are accepted, the client can be
    built, and both exchanges take place and are answered with a status that
    the phase accepts; and then both requests were sent, in order. *)
Theorem X7_ok_iff_both_phases_succeed (env : Env) (cfg : config.Config) (t : list Event) :
  let job := fst (generateCheckConfig cfg) in
  let create := createRequest cfg job in
  let execute := executeRequest cfg job in
  (fst (executePlaybook env cfg t) = Done (CheckStateOK, None) <->
   url_Parse env (createURL cfg) = None
   /\ url_Parse env (executeURL cfg) = None
   /\ ca_file_ok env cfg = true
   /\ (exists r1,
          http_Do env (sent t) (client_of env cfg) create = inl r1
          /\ (StatusCode r1 = 409
              \/ (StatusCode r1 < 300
                  /\ (StatusCode r1 = 201 \/ exists b, ReadAll r1 = inl b))))
   /\ (exists r2,
          http_Do env (sent t ++ [create]) (client_of env cfg) execute = inl r2
          /\ StatusCode r2 < 300
          /\ (StatusCode r2 = 202 \/ exists b, ReadAll r2 = inl b)))
  /\ (fst (executePlaybook env cfg t) = Done (CheckStateOK, None) ->
      sent (snd (executePlaybook env cfg t)) = sent t ++ [create; execute]).
Proof.
  intros job create execute.
  set (t0 := t ++ [Log (registering_message cfg job)]).
  assert (Ht0 : sent t0 = sent t) by apply sent_log.
  pose proof (createJob_done_iff env cfg job t0) as Hc. rewrite Ht0 in Hc.
  fold create in Hc. unfold create_succeeds in Hc.
  destruct (executePlaybook_cases env cfg t)
    as [[Hexit H]|(t1 & Hcreate & Hs & Hexec)].
  - fold job in Hexit. fold t0 in Hexit. rewrite H. simpl fst. split; [|discriminate]. split; [discriminate|].
    intros (Hurl1 & _ & Hca & Hr1 & _).
    assert (Hdone : fst (createJob env cfg job t0) = Done None)
      by (apply Hc; auto).
    rewrite Hexit in Hdone. discriminate Hdone.
  - fold job in Hcreate. fold t0 in Hcreate. fold job create in Hs. fold job in Hexec.
    pose proof (executeJob_done_iff env cfg job t1) as He. rewrite Hs in He.
    fold execute in He. unfold execute_succeeds in He.
    assert (Hc1 : fst (createJob env cfg job t0) = Done None)
      by (rewrite Hcreate; reflexivity).
    apply Hc in Hc1. destruct Hc1 as (Hurl1 & Hca & Hr1).
    pose proof (executeJob_outcome env cfg job t1) as Ho.
    destruct Hexec as [[Hx H]|[Hx H]]; rewrite H; simpl fst; simpl snd.
    + split; [|discriminate]. split; [discriminate|].
      intros (_ & Hurl2 & _ & _ & Hr2).
      assert (Hdone : fst (executeJob env cfg job t1) = Done None)
        by (apply He; auto).
      rewrite Hx in Hdone. discriminate Hdone.
    + split.
      * split; [|reflexivity]. intros _.
        apply He in Hx. destruct Hx as (Hurl2 & _ & Hr2). auto 10.
      * intros _. destruct Ho as [[Hr _]|[_ Hsent]].
        { rewrite Hx in Hr. discriminate Hr. }
        fold execute in Hsent. rewrite Hsent, Hs, <- app_assoc. reflexivity.
Qed.

Lemma X7_ok_iff_both_phases_succeed_witness :
  sent (snd (executePlaybook platform_env sample_config []))
  = sent [] ++ [createRequest sample_config (fst (generateCheckConfig sample_config));
                executeRequest sample_config (fst (generateCheckConfig sample_config))].
Proof.
  exact (proj2 (X7_ok_iff_both_phases_succeed platform_env sample_config []) eq_refl).
Defined.

(** ** What goes on the wire *)

Lemma list_snoc_neq {A : Type} (l l' : list A) (a : A) : l ++ a :: l' <> l.
Proof.
  intros H. apply (f_equal (@length A)) in H. rewrite length_app in H.
  simpl in H. lia.
Qed.

(** Once the URL is accepted and the client built, the request is handed to
    the client, whatever the answer. *)
Lemma createJob_reaches (env : Env) (cfg : config.Config) (job : types.CheckConfig)
    (t : list Event) :
  url_Parse env (createURL cfg) = None ->
  ca_file_ok env cfg = true ->
  sent (snd (createJob env cfg job t)) = sent t ++ [createRequest cfg job].
Proof.
  intros Hurl Hca.
  destruct (createJob_outcome env cfg job t) as [[_ Hno]|[_ Hyes]]; [|exact Hyes].
  exfalso. revert Hno.
  unfold createJob, http_NewRequest. rewrite Hurl. unfold bind.
  rewrite (initHTTPClient_ok _ _ _ Hca). unfold httpClient_Do. cbv beta iota.
  assert (Hpre : forall req,
             sent ((t ++ pool_log env) ++ [Do (client_of env cfg) req]) <> sent t).
  { intros req. rewrite sent_do, sent_app, sent_pool_log, app_nil_r.
    apply list_snoc_neq. }
  match goal with
  | |- context [match ?d with inl _ => _ | inr _ => _ end] =>
      destruct d as [resp|e]
  end;
    repeat match goal with
           | |- context [if ?b then _ else _] => destruct b
           end;
    try destruct (ReadAll resp);
    unfold log_Fatalf, log_Printf, fmt_Printf, emit, ret; simpl;
    rewrite ?sent_log, ?sent_stdout; apply Hpre.
Qed.

Lemma createJob_not_reached (env : Env) (cfg : config.Config) (job : types.CheckConfig)
    (t : list Event) :
  url_Parse env (createURL cfg) <> None \/ ca_file_ok env cfg = false ->
  fst (createJob env cfg job t) = OsExit 1
  /\ sent (snd (createJob env cfg job t)) = sent t.
Proof.
  intros [Hurl|Hca].
  - unfold createJob, http_NewRequest.
    destruct (url_Parse env (createURL cfg)) as [e|]; [|contradiction].
    unfold log_Fatalf. simpl. split; [reflexivity | apply sent_log].
  - destruct (ca_file_not_ok env cfg Hca) as (Hpath & e & Hread).
    exact (createJob_unreadable_ca env cfg job t e Hpath Hread).
Qed.

(** X8: every request of a run is a POST that carries exactly the
    Authorization header with the bearer token and the JSON content type,
    and goes to the namespace's checks URL or to the job's execute URL. *)
Theorem X8_requests_are_authenticated_posts
    (env : Env) (cfg : config.Config) (t : list Event) :
  exists requests,
    sent (snd (executePlaybook env cfg t)) = sent t ++ requests
    /\ Forall (fun req =>
                 Method req = "POST"
                 /\ Header req
                    = [("Authorization", "Bearer " +:+ config.SensuAccessToken cfg);
                       ("Content-Type", "application/json")]
                 /\ (URL req = createURL cfg \/ URL req = executeURL cfg))
              requests.
Proof.
  destruct (executePlaybook_sent env cfg t) as [H|[H|H]].
  - exists []. rewrite H, app_nil_r. split; [reflexivity | constructor].
  - eexists. split; [exact H|].
    constructor; [|constructor].
    split; [reflexivity|]. split; [reflexivity|]. left. reflexivity.
  - eexists. split; [exact H|].
    constructor; [|constructor; [|constructor]].
    + split; [reflexivity|]. split; [reflexivity|]. left. reflexivity.
    + split; [reflexivity|]. split; [reflexivity|]. right. reflexivity.
Qed.

(** X9: a run ends without having sent anything exactly when
    [http.NewRequest] rejects the create URL or the trusted-CA file cannot
    be read; otherwise the create request is always sent first. *)
Theorem X9_nothing_sent_iff (env : Env) (cfg : config.Config) (t : list Event) :
  (sent (snd (executePlaybook env cfg t)) = sent t <->
   url_Parse env (createURL cfg) <> None \/ ca_file_ok env cfg = false)
  /\ (sent (snd (executePlaybook env cfg t)) = sent t ->
      fst (executePlaybook env cfg t) = OsExit 1).
Proof.
  set (job := fst (generateCheckConfig cfg)).
  set (t0 := t ++ [Log (registering_message cfg job)]).
  assert (Ht0 : sent t0 = sent t) by apply sent_log.
  assert (Hdec : (url_Parse env (createURL cfg) <> None \/ ca_file_ok env cfg = false)
                 \/ (url_Parse env (createURL cfg) = None /\ ca_file_ok env cfg = true)).
  { destruct (url_Parse env (createURL cfg)); [left; left; discriminate|].
    destruct (ca_file_ok env cfg); auto. }
  destruct Hdec as [Hbad|[Hurl Hca]].
  - destruct (createJob_not_reached env cfg job t0 Hbad) as [Hexit Hsent].
    destruct (executePlaybook_cases env cfg t) as [[_ H]|(t1 & Hc & _)].
    + fold job in H. fold t0 in H. rewrite H. simpl. rewrite Hsent, Ht0. tauto.
    + fold job in Hc. fold t0 in Hc. rewrite Hc in Hexit. discriminate Hexit.
  - pose proof (createJob_reaches env cfg job t0 Hurl Hca) as Hsent.
    rewrite Ht0 in Hsent.
    assert (Hne : sent (snd (executePlaybook env cfg t)) <> sent t).
    { destruct (executePlaybook_cases env cfg t)
        as [[_ H]|(t1 & Hc & Hs & Hexec)].
      - fold job in H. fold t0 in H. rewrite H. simpl. rewrite Hsent.
        apply list_snoc_neq.
      - fold job in Hexec.
        destruct (executeJob_sent env cfg job t1) as [He|He];
          destruct Hexec as [[_ H]|[_ H]]; rewrite H; simpl; rewrite He, Hs;
          rewrite <- ?app_assoc; apply list_snoc_neq. }
    split; [split|]; intros H; try contradiction.
    destruct H as [H|H]; [contradiction | rewrite Hca in H; discriminate H].
Qed.

Lemma X9_nothing_sent_iff_witness :
  fst (executePlaybook platform_env (with_ca_file "/etc/sensu/missing.pem") []) = OsExit 1.
Proof.
  apply (proj2 (X9_nothing_sent_iff platform_env (with_ca_file "/etc/sensu/missing.pem") [])).
  apply (proj2 (proj1 (X9_nothing_sent_iff platform_env
                         (with_ca_file "/etc/sensu/missing.pem") []))).
  right. reflexivity.
Defined.

(** X10: a run whose Invoke was rejected after the job had been created can
    simply be repeated with the same job identifier: the second run meets
    the conflict in Create, goes on to Invoke, and is OK when that is
    accepted. *)
Theorem X10_retry_after_failed_invoke (env : Env) (cfg : config.Config) (t : list Event)
    (ra rb rc rd : Response) :
  let job := fst (generateCheckConfig cfg) in
  let create := createRequest cfg job in
  let execute := executeRequest cfg job in
  let client := client_of env cfg in
  url_Parse env (createURL cfg) = None ->
  url_Parse env (executeURL cfg) = None ->
  ca_file_ok env cfg = true ->
  http_Do env (sent t) client create = inl ra ->
  StatusCode ra = 201 ->
  http_Do env (sent t ++ [create]) client execute = inl rb ->
  300 <= StatusCode rb ->
  http_Do env (sent t ++ [create; execute]) client create = inl rc ->
  StatusCode rc = 409 ->
  http_Do env (sent t ++ [create; execute; create]) client execute = inl rd ->
  StatusCode rd = 202 ->
  fst (twice (executePlaybook env cfg) t) = (OsExit 1, Done (CheckStateOK, None)).
Proof.
  intros job create execute client Hurl1 Hurl2 Hca Hda Hca' Hdb Hcb Hdc Hcc Hdd Hcd.
  pose proof (executePlaybook_execute_rejected env cfg t Hurl1 Hca ra Hda
                (or_introl Hca') Hurl2 rb Hdb Hcb) as [Hfirst _].
  pose proof (executePlaybook_invoked env cfg t Hurl1 Hca ra Hda (or_introl Hca')
                Hurl2) as Hsent.
  unfold twice.
  destruct (executePlaybook env cfg t) as [res1 t1]. simpl in Hfirst, Hsent.
  fold job in Hsent. fold create in Hsent. fold execute in Hsent.
  assert (Hdc' : http_Do env (sent t1) client create = inl rc)
    by (rewrite Hsent; exact Hdc).
  assert (Hdd' : http_Do env (sent t1 ++ [create]) client execute = inl rd)
    by (rewrite Hsent, <- app_assoc; exact Hdd).
  pose proof (executePlaybook_ok env cfg t1 Hurl1 Hca rc Hdc' (or_intror Hcc)
                Hurl2 rd Hdd' Hcd) as Hsecond.
  destruct (executePlaybook env cfg t1) as [res2 t2]. simpl in Hsecond |- *.
  rewrite Hfirst, Hsecond. reflexivity.
Qed.

Lemma X10_retry_after_failed_invoke_witness :
  fst (twice (executePlaybook
                (scripted_env [status 201; status 500; status 409; status 202])
                sample_config) [])
  = (OsExit 1, Done (CheckStateOK, None)).
Proof.
  refine (X10_retry_after_failed_invoke
            (scripted_env [status 201; status 500; status 409; status 202])
            sample_config []
            {| StatusCode := 201; ReadAll := inl "" |}
            {| StatusCode := 500; ReadAll := inl "" |}
            {| StatusCode := 409; ReadAll := inl "" |}
            {| StatusCode := 202; ReadAll := inl "" |}
            eq_refl eq_refl eq_refl eq_refl eq_refl eq_refl _ eq_refl eq_refl
            eq_refl eq_refl).
  simpl. lia.
Defined.

(** ** The trusted pool *)

(** X11: [LoadCACerts] never returns a non-nil error: it returns a pool with
    a nil error, or the process exits.  Without a CA file the pool is the
    system pool when there is one; with a readable CA file the file's
    certificates are added to it. *)
Theorem X11_LoadCACerts_returns_no_error (env : Env) (path : string) (t : list Event) :
  (forall pool e t', LoadCACerts env path t <> (Done (pool, Some e), t'))
  /\ (path = "" ->
      LoadCACerts env path t = (Done (base_pool env, None), t ++ pool_log env))
  /\ (forall certs : string,
         path <> "" ->
         ioutil_ReadFile env path = inl certs ->
         LoadCACerts env path t
         = (Done (x509_AppendCertsFromPEM env (base_pool env) certs, None),
            t ++ pool_log env))
  /\ (forall pool : CertPool,
         x509_SystemCertPool env = (Some pool, None) ->
         base_pool env = pool /\ pool_log env = []).
Proof.
  unfold LoadCACerts, base_pool, pool_log, bind, ret, log_Printf, log_Fatalf, emit.
  split; [|split; [|split]].
  - intros pool e t'.
    destruct (x509_SystemCertPool env) as [[p|] [e0|]]; simpl;
      destruct (String.eqb path ""); simpl;
      try destruct (ioutil_ReadFile env path); simpl; discriminate.
  - intros ->.
    destruct (x509_SystemCertPool env) as [[p|] [e0|]]; simpl;
      rewrite ?app_nil_r; reflexivity.
  - intros certs Hpath Hread.
    destruct (String.eqb_spec path ""); [contradiction|].
    destruct (x509_SystemCertPool env) as [[p|] [e0|]]; simpl; rewrite Hread;
      rewrite ?app_nil_r; reflexivity.
  - intros pool ->. split; reflexivity.
Qed.

Lemma X11_LoadCACerts_returns_no_error_witness :
  LoadCACerts platform_env "/etc/sensu/ca.pem" []
  = (Done (["system-root"; "-----BEGIN CERTIFICATE-----"], None), []).
Proof.
  exact (proj1 (proj2 (proj2 (X11_LoadCACerts_returns_no_error platform_env
                                "/etc/sensu/ca.pem" [])))
           "-----BEGIN CERTIFICATE-----" ltac:(discriminate) eq_refl).
Defined.

(** ** The job definition, field by field *)

Lemma generateCheckConfig_RuntimeAssets (cfg : config.Config) :
  types.RuntimeAssets (fst (generateCheckConfig cfg))
  = if is_empty (config.RuntimeAssets cfg) then []
    else strings_Split (config.RuntimeAssets cfg) comma.
Proof.
  unfold generateCheckConfig.
  destruct (strconv_Atoi (config.Timeout cfg)).
  destruct (is_empty (config.RuntimeAssets cfg)); reflexivity.
Qed.

(** X12: the job definition has no runtime assets exactly when the
    runtime-assets string is empty; otherwise they are its comma-split, in
    order, and joining them with commas gives the string back. *)
Theorem X12_runtime_assets (cfg : config.Config) :
  let assets := types.RuntimeAssets (fst (generateCheckConfig cfg)) in
  (assets = [] <-> config.RuntimeAssets cfg = "")
  /\ (config.RuntimeAssets cfg <> "" ->
      assets = strings_Split (config.RuntimeAssets cfg) comma
      /\ strings_Join assets comma = config.RuntimeAssets cfg
      /\ Forall (fun piece => contains_byte piece comma = false) assets).
Proof.
  cbv zeta. rewrite generateCheckConfig_RuntimeAssets.
  destruct (is_empty (config.RuntimeAssets cfg)) eqn:He;
    [apply is_empty_true in He | apply is_empty_false in He].
  - split; [tauto | contradiction].
  - split.
    + split; [|contradiction].
      intros H. exfalso. exact (strings_Split_not_nil _ _ H).
    + intros _. split; [reflexivity|].
      split; [apply strings_Join_Split | apply strings_Split_pieces].
Qed.

Lemma X12_runtime_assets_witness :
  types.RuntimeAssets (fst (generateCheckConfig (with_assets "sensu/ruby,scripts")))
  = strings_Split "sensu/ruby,scripts" comma.
Proof.
  apply (proj2 (X12_runtime_assets (with_assets "sensu/ruby,scripts"))).
  discriminate.
Defined.

(** *** Decimal timeouts *)

Lemma digit_of_pretty_N_char (d : N) :
  (d < 10)%N -> digit_of (pretty_N_char d) = Some (Z.of_N d).
Proof.
  intros H.
  assert (Hd : (d = 0 \/ d = 1 \/ d = 2 \/ d = 3 \/ d = 4 \/ d = 5 \/ d = 6 \/ d = 7
                \/ d = 8 \/ d = 9)%N) by lia.
  repeat (destruct Hd as [->|Hd]; [reflexivity|]). subst d. reflexivity.
Qed.

Lemma split_sign_pretty_N_char (d : N) (rest : string) :
  (d < 10)%N ->
  split_sign (String (pretty_N_char d) rest) = (false, String (pretty_N_char d) rest).
Proof.
  intros H.
  assert (Hd : (d = 0 \/ d = 1 \/ d = 2 \/ d = 3 \/ d = 4 \/ d = 5 \/ d = 6 \/ d = 7
                \/ d = 8 \/ d = 9)%N) by lia.
  repeat (destruct Hd as [->|Hd]; [reflexivity|]). subst d. reflexivity.
Qed.

(** Reading back the digits that [pretty] wrote. *)
Lemma parse_digits_pretty_N_go (x : N) :
  forall s : string, parse_digits 0 (pretty_N_go x s) = parse_digits (Z.of_N x) s.
Proof.
  induction (N.lt_wf_0 x) as [x _ IH]. intros s.
  destruct (N.eq_dec x 0%N) as [->|Hx]; [rewrite pretty_N_go_0; reflexivity|].
  rewrite pretty_N_go_step by lia.
  rewrite IH by (apply N.div_lt; lia).
  simpl. rewrite digit_of_pretty_N_char by (apply N.mod_lt; lia).
  f_equal. pose proof (N.div_mod x 10%N). lia.
Qed.

Lemma pretty_N_go_head (x : N) :
  forall s : string,
    (0 < x)%N ->
    exists d rest, (d < 10)%N /\ pretty_N_go x s = String (pretty_N_char d) rest.
Proof.
  induction (N.lt_wf_0 x) as [x _ IH]. intros s Hx.
  rewrite pretty_N_go_step by exact Hx.
  destruct (N.eq_dec (x / 10)%N 0%N) as [H0|H0].
  - rewrite H0, pretty_N_go_0. exists (x mod 10)%N, s.
    split; [apply N.mod_lt; lia | reflexivity].
  - apply IH.
    + apply N.div_lt; [exact Hx | reflexivity].
    + apply N.neq_0_lt_0. exact H0.
Qed.

Lemma parse_digits_ge (s : string) :
  forall acc v : Z, 0 <= acc -> parse_digits acc s = Some v -> acc <= v.
Proof.
  induction s as [|c s IH]; intros acc v Hacc H; cbn in H.
  - injection H as <-. lia.
  - destruct (digit_of c) as [d|] eqn:Hd; [|discriminate H].
    apply digit_of_range in Hd. apply IH in H; lia.
Qed.

(** Where the number fits a [uint64], the loop of [ParseUint] reads what the
    fast path reads. *)
Lemma ParseUint_digits_parse_digits (s : string) :
  forall n v : Z,
    0 <= n -> parse_digits n s = Some v -> v <= maxUint64 ->
    ParseUint_digits n s = (v, None).
Proof.
  induction s as [|c s IH]; intros n v Hn H Hv; cbn in H; cbn [ParseUint_digits].
  - injection H as <-. reflexivity.
  - destruct (digit_of c) as [d|] eqn:Hd; [|discriminate H].
    apply digit_of_range in Hd.
    assert (Hge : n * 10 + d <= v) by (apply (parse_digits_ge s); [lia | exact H]).
    rewrite maxUint64_value in Hv.
    rewrite (Z.geb_leb n), cutoff10_value.
    destruct (Z.leb_spec 1844674407370955162 n); [lia|].
    cbv zeta. rewrite (Z.gtb_ltb (n * 10 + d)), maxUint64_value.
    destruct (Z.ltb_spec 18446744073709551615 (n * 10 + d)); [lia|].
    apply IH; [lia | exact H | rewrite maxUint64_value; lia].
Qed.

Lemma Atoi_unsigned (s : string) (v : Z) :
  split_sign s = (false, s) -> s <> "" ->
  parse_digits 0 s = Some v -> v < 2 ^ 63 ->
  strconv_Atoi s = (v, None).
Proof.
  intros Hsign Hne Hparse Hv. unfold strconv_Atoi. cbv zeta.
  destruct ((0 <? String.length s)%nat && (String.length s <? 19)%nat).
  - rewrite Hsign. destruct s as [|c s]; [contradiction|].
    rewrite Hparse. reflexivity.
  - unfold strconv_ParseInt. destruct s as [|c s]; [contradiction|].
    rewrite Hsign. unfold strconv_ParseUint.
    rewrite (ParseUint_digits_parse_digits _ 0 v (Z.le_refl 0) Hparse)
      by (rewrite maxUint64_value; lia).
    cbn [negb andb]. rewrite (Z.geb_leb v).
    destruct (Z.leb_spec (2 ^ 63) v); [lia | reflexivity].
Qed.

Lemma Atoi_negative (r : string) (v : Z) :
  r <> "" -> parse_digits 0 r = Some v -> v <= 2 ^ 63 ->
  strconv_Atoi (String "-" r) = (- v, None).
Proof.
  intros Hne Hparse Hv. unfold strconv_Atoi. cbv zeta.
  change (split_sign (String "-" r)) with (true, r).
  destruct ((0 <? String.length (String "-" r))%nat
            && (String.length (String "-" r) <? 19)%nat).
  - destruct r as [|c r]; [contradiction|]. rewrite Hparse. reflexivity.
  - unfold strconv_ParseInt. change (split_sign (String "-" r)) with (true, r).
    cbv beta iota. unfold strconv_ParseUint. destruct r as [|c r]; [contradiction|].
    rewrite (ParseUint_digits_parse_digits _ 0 v (Z.le_refl 0) Hparse)
      by (rewrite maxUint64_value; lia).
    cbn [negb andb]. rewrite (Z.gtb_ltb v).
    destruct (Z.ltb_spec (2 ^ 63) v); [lia | reflexivity].
Qed.

(** [strconv.Atoi] reads the decimal text of every [int] back. *)
Lemma Atoi_pretty (n : Z) :
  - 2 ^ 63 <= n < 2 ^ 63 -> strconv_Atoi (pretty n) = (n, None).
Proof.
  intros Hn. destruct n as [|p|p].
  - reflexivity.
  - unfold pretty, pretty_Z, pretty_positive, pretty, pretty_N.
    destruct (decide (N.pos p = 0%N)) as [H|_]; [discriminate H|].
    destruct (pretty_N_go_head (N.pos p) "") as (d & rest & Hd & Heq); [lia|].
    apply Atoi_unsigned.
    + rewrite Heq. apply split_sign_pretty_N_char. exact Hd.
    + rewrite Heq. discriminate.
    + rewrite parse_digits_pretty_N_go. reflexivity.
    + lia.
  - unfold pretty, pretty_Z, pretty_positive, pretty, pretty_N.
    destruct (decide (N.pos p = 0%N)) as [H|_]; [discriminate H|].
    destruct (pretty_N_go_head (N.pos p) "") as (d & rest & Hd & Heq); [lia|].
    change ("-" +:+ pretty_N_go (N.pos p) "")
      with (String "-" (pretty_N_go (N.pos p) "")).
    change (Z.neg p) with (- Z.pos p).
    apply Atoi_negative.
    + rewrite Heq. discriminate.
    + rewrite parse_digits_pretty_N_go. reflexivity.
    + lia.
Qed.

(** X13: a timeout given as the decimal text of a number [n] within the
    [int] range yields the job timeout [n mod 2^32]: [n] itself from 0 up to
    2^32 - 1, and a wrapped-around value for a negative [n] ([-1] gives
    4294967295) or for one of 2^32 or more. *)
Theorem X13_decimal_timeout (cfg : config.Config) (n : Z) :
  config.Timeout cfg = pretty n ->
  - 2 ^ 63 <= n < 2 ^ 63 ->
  types.Timeout (fst (generateCheckConfig cfg)) = n mod 2 ^ 32
  /\ (0 <= n < 2 ^ 32 -> types.Timeout (fst (generateCheckConfig cfg)) = n)
  /\ (- 2 ^ 32 <= n < 0 -> types.Timeout (fst (generateCheckConfig cfg)) = 2 ^ 32 + n).
Proof.
  intros Htext Hn.
  rewrite generateCheckConfig_Timeout, Htext, (Atoi_pretty n Hn). unfold uint32.
  simpl fst. split; [reflexivity|]. split; intros Hrange.
  - apply Z.mod_small. exact Hrange.
  - symmetry. apply (Z.mod_unique n (2 ^ 32) (-1) (2 ^ 32 + n)); lia.
Qed.

Lemma X13_decimal_timeout_witness :
  types.Timeout (fst (generateCheckConfig (with_timeout "-1"))) = 4294967295.
Proof.
  exact (proj2 (proj2 (X13_decimal_timeout (with_timeout "-1") (-1) eq_refl
                         ltac:(lia)))
           ltac:(lia)).
Defined.

(** ** Subscription lists *)

Lemma contains_byte_cons (c : ascii) (s : string) (sep : ascii) :
  contains_byte (String c s) sep = false ->
  Ascii.eqb c sep = false /\ contains_byte s sep = false.
Proof. simpl. intros H. apply orb_false_iff in H. exact H. Qed.

Lemma strings_Split_no_sep (piece : string) (sep : ascii) :
  contains_byte piece sep = false -> strings_Split piece sep = [piece].
Proof.
  induction piece as [|c piece IH]; intros H; [reflexivity|].
  apply contains_byte_cons in H. destruct H as [Hc Hrest].
  simpl. rewrite Hc, (IH Hrest). reflexivity.
Qed.

Lemma strings_Split_app (piece rest : string) (sep : ascii) :
  contains_byte piece sep = false ->
  strings_Split (piece +:+ String sep rest) sep = piece :: strings_Split rest sep.
Proof.
  induction piece as [|c piece IH]; intros H.
  - simpl. rewrite Ascii.eqb_refl. reflexivity.
  - apply contains_byte_cons in H. destruct H as [Hc Hrest].
    simpl. rewrite Hc, (IH Hrest). reflexivity.
Qed.

Lemma strings_Split_Join (elems : list string) (sep : ascii) :
  elems <> [] ->
  Forall (fun piece => contains_byte piece sep = false) elems ->
  strings_Split (strings_Join elems sep) sep = elems.
Proof.
  induction elems as [|e elems IH]; intros Hne Hall; [contradiction|].
  inversion Hall as [|? ? He Hrest]; subst.
  destruct elems as [|e' elems].
  - simpl. apply strings_Split_no_sep. exact He.
  - change (strings_Join (e :: e' :: elems) sep)
      with (e +:+ String sep (strings_Join (e' :: elems) sep)).
    rewrite (strings_Split_app _ _ _ He), IH; [reflexivity | discriminate | exact Hrest].
Qed.

(** X14: any non-empty list of subscription names without commas can be
    delivered: if the subscriptions input is the names joined by commas, the
    Invoke body carries exactly that list, in order and with duplicates. *)
Theorem X14_joined_names_are_delivered
    (cfg : config.Config) (job : types.CheckConfig) (names : list string) :
  names <> [] ->
  Forall (fun name => contains_byte name comma = false) names ->
  config.Subscriptions cfg = strings_Join names comma ->
  Subscriptions (jobRequest cfg job) = names.
Proof.
  intros Hne Hall Hsubs. unfold jobRequest. simpl. rewrite Hsubs.
  apply strings_Split_Join; assumption.
Qed.

Lemma X14_joined_names_are_delivered_witness :
  Subscriptions (jobRequest sample_config (fst (generateCheckConfig sample_config)))
  = ["web"; "db"; "cache"].
Proof.
  apply (X14_joined_names_are_delivered sample_config
           (fst (generateCheckConfig sample_config)) ["web"; "db"; "cache"]).
  - discriminate.
  - repeat constructor.
  - reflexivity.
Defined.

Lemma strings_Split_length (s : string) (sep : ascii) :
  length (strings_Split s sep) = S (count_byte s sep).
Proof.
  induction s as [|c s IH]; [reflexivity|].
  simpl. destruct (Ascii.eqb c sep).
  - simpl. rewrite IH. reflexivity.
  - pose proof (strings_Split_not_nil s sep) as Hnil.
    destruct (strings_Split s sep) as [|p ps]; [contradiction|].
    simpl in *. exact IH.
Qed.

(** X15: the Invoke body names one subscription more than the input has
    commas, so empty names between, before or after commas are kept and the
    list is never empty; an input without a comma is passed on as the single
    name. *)
Theorem X15_subscription_count (cfg : config.Config) (job : types.CheckConfig) :
  length (Subscriptions (jobRequest cfg job))
  = S (count_byte (config.Subscriptions cfg) comma)
  /\ Subscriptions (jobRequest cfg job) <> []
  /\ (contains_byte (config.Subscriptions cfg) comma = false ->
      Subscriptions (jobRequest cfg job) = [config.Subscriptions cfg]).
Proof.
  unfold jobRequest. simpl. split; [apply strings_Split_length|].
  split; [apply strings_Split_not_nil | apply strings_Split_no_sep].
Qed.

Lemma X15_subscription_count_witness :
  Subscriptions (jobRequest (with_fields "https://sensu.example:8080" "default" "uptime" "web")
                   (fst (generateCheckConfig sample_config)))
  = ["web"].
Proof.
  apply (proj2 (proj2 (X15_subscription_count
                         (with_fields "https://sensu.example:8080" "default" "uptime" "web")
                         (fst (generateCheckConfig sample_config))))).
  reflexivity.
Defined.

(** Empty names are kept. *)
Example trailing_comma_gives_empty_name :
  strings_Split "web," comma = ["web"; ""] /\ strings_Split ",," comma = [""; ""; ""].
Proof. split; reflexivity. Qed.

(** ** The option table *)

Lemma options_never_point_to_Timeout (uuid : string) (o : sensu.PluginConfigOption) :
  In o (options uuid) -> sensu.Value o <> ref_Timeout.
Proof.
  unfold options. simpl.
  intros H. repeat (destruct H as [<-|H]; [discriminate|]). contradiction.
Qed.

Lemma store_keeps_Timeout (p : ConfigField) (v : string) (cfg : config.Config) :
  p <> ref_Timeout -> config.Timeout (store p v cfg) = config.Timeout cfg.
Proof. destruct p; intros H; try reflexivity. contradiction. Qed.

(** X16: no option of the table points to [config.Timeout] (the option named
    [timeout] points to [config.Command]), so whatever values are assigned
    to whichever options, in any order, [config.Timeout] keeps the value it
    had; starting from the zero-valued [config], the job definition's
    Timeout is therefore always 0. *)
Theorem X16_options_never_set_the_timeout
    (uuid : string) (writes : list (sensu.PluginConfigOption * string)) :
  Forall (fun w => In (fst w) (options uuid)) writes ->
  (forall cfg, config.Timeout (assign writes cfg) = config.Timeout cfg)
  /\ types.Timeout (fst (generateCheckConfig (assign writes initial_config))) = 0
  /\ (forall o v cfg,
         In o (options uuid) -> sensu.Path o = "timeout" ->
         sensu.Value o = ref_Command
         /\ config.Command (store (sensu.Value o) v cfg) = v).
Proof.
  intros Hall.
  assert (Hkeep : forall cfg, config.Timeout (assign writes cfg) = config.Timeout cfg).
  { induction Hall as [|[o v] writes Ho _ IH]; intros cfg; [reflexivity|].
    simpl. rewrite IH. apply store_keeps_Timeout.
    exact (options_never_point_to_Timeout uuid o Ho). }
  split; [exact Hkeep|]. split.
  - rewrite generateCheckConfig_Timeout, Hkeep. reflexivity.
  - intros o v cfg Ho Hpath. unfold options in Ho. simpl in Ho.
    repeat (destruct Ho as [<-|Ho]; [first [discriminate Hpath | split; reflexivity]|]).
    contradiction.
Qed.

Lemma X16_options_never_set_the_timeout_witness :
  types.Timeout (fst (generateCheckConfig (assign sample_writes initial_config))) = 0.
Proof.
  apply (X16_options_never_set_the_timeout "1b9d6bcd-bbfd-4b2d-9b5d-ab8dfbbd4bed"
           sample_writes).
  unfold sample_writes, options.
  repeat (constructor; [simpl; tauto|]). constructor.
Defined.

(** With one value per option, the timeout's value ends up as the command. *)
Example timeout_value_overwrites_command :
  config.Command (assign sample_writes initial_config) = "30"
  /\ config.Timeout (assign sample_writes initial_config) = "".
Proof. split; reflexivity. Qed.
